(** * CODEOWNERS approval check: a shallow embedding of [codeowners.py]

    The development embeds the ownership engine of
    [src/gitlab-codeowners/codeowners.py]:
    - [read_codeowners_file]   (lines 88-116), the manifest parser and reader;
    - [get_codeowners_for_file] (lines 118-141), the ancestor walk;
    - [validate_approvals]     (lines 143-202), the decision rule.

    Python strings are sequences of Unicode code points, owner sets are
    Python [set]s (here [gset]), and every [print], [open] and HTTP request
    is recorded as an event of a trace, in program order.  The [while True]
    loop of the ancestor walk is run with fuel: [OutOfFuel] stands for a
    loop that has not reached its [break]. *)

From Stdlib Require Import NArith List Ascii String Lia.
From stdpp Require Import base decidable option list countable gmap.

Set Warnings "-clear-no-such-hyp".

Open Scope N_scope.

(** ** Python [str] *)

(** A Python string is a finite sequence of code points. *)
Abbreviation char := N (only parsing).
Abbreviation str := (list N) (only parsing).

(** String literals of the source, read code point by code point. *)
Definition py (s : string) : str :=
  List.map N_of_ascii (list_ascii_of_string s).

(** [str.isspace] for one code point: the table behind [str.strip()] and
    [str.split()] without arguments. *)
Definition isspace (c : char) : bool :=
  ((0x9 <=? c) && (c <=? 0xd)) || ((0x1c <=? c) && (c <=? 0x20))
  || (c =? 0x85) || (c =? 0xa0) || (c =? 0x1680)
  || ((0x2000 <=? c) && (c <=? 0x200a))
  || (c =? 0x2028) || (c =? 0x2029) || (c =? 0x202f) || (c =? 0x205f)
  || (c =? 0x3000).

(** The line boundaries of [str.splitlines()]. *)
Definition islinebreak (c : char) : bool :=
  ((0xa <=? c) && (c <=? 0xd)) || ((0x1c <=? c) && (c <=? 0x1e))
  || (c =? 0x85) || (c =? 0x2028) || (c =? 0x2029).

(** [s.startswith(prefix)] *)
Fixpoint startswith (s prefix : str) {struct prefix} : bool :=
  match prefix, s with
  | [], _ => true
  | p :: prefix', c :: s' => (c =? p) && startswith s' prefix'
  | _ :: _, [] => false
  end.

Arguments startswith : simpl never.

(** [s.endswith(suffix)] *)
Definition endswith (s suffix : str) : bool :=
  startswith (rev s) (rev suffix).

(** [s.lstrip()], [s.rstrip()] and [s.strip()] without arguments. *)
Fixpoint lstrip (s : str) : str :=
  match s with
  | c :: s' => if isspace c then lstrip s' else s
  | [] => []
  end.

Definition rstrip (s : str) : str := rev (lstrip (rev s)).

Definition strip (s : str) : str := rstrip (lstrip s).

(** [s.lstrip(sep)] for a one-character [sep]. *)
Fixpoint lstrip_char (sep : char) (s : str) : str :=
  match s with
  | c :: s' => if c =? sep then lstrip_char sep s' else s
  | [] => []
  end.

(** [s.splitlines()]: the text is cut at every line boundary, ["\r\n"]
    counts as one boundary, and a trailing boundary opens no empty line.
    [cur] holds the characters of the line being read, last one first. *)
Fixpoint splitlines_from (cur : str) (s : str) : list str :=
  match s with
  | [] => match cur with [] => [] | _ :: _ => [rev cur] end
  | c :: s' =>
      if islinebreak c then
        rev cur ::
          match s' with
          | c' :: s'' =>
              if (c =? 0xd) && (c' =? 0xa) then splitlines_from [] s''
              else splitlines_from [] s'
          | [] => splitlines_from [] s'
          end
      else splitlines_from (c :: cur) s'
  end.

Definition splitlines (s : str) : list str := splitlines_from [] s.

(** [s.split()]: the maximal runs of non-whitespace characters. *)
Fixpoint split_from (cur : str) (s : str) : list str :=
  match s with
  | [] => match cur with [] => [] | _ :: _ => [rev cur] end
  | c :: s' =>
      if isspace c then
        match cur with
        | [] => split_from [] s'
        | _ :: _ => rev cur :: split_from [] s'
        end
      else split_from (c :: cur) s'
  end.

Definition split (s : str) : list str := split_from [] s.

(** [s.split(sep)] for a one-character [sep]: empty fields are kept. *)
Fixpoint split_on (sep : char) (s : str) : list str :=
  match s with
  | [] => [[]]
  | c :: s' =>
      if c =? sep then [] :: split_on sep s'
      else match split_on sep s' with
           | w :: ws => (c :: w) :: ws
           | [] => [[c]]
           end
  end.

(** [sep.join(parts)] *)
Fixpoint str_join (sep : str) (parts : list str) : str :=
  match parts with
  | [] => []
  | [p] => p
  | p :: ps => p ++ sep ++ str_join sep ps
  end.

(** ** [pathlib.PurePosixPath] *)

(** A parsed path: its root ([""], ["/"] or ["//"]) and the components after
    it.  Two paths are equal when both agree, as [PurePath.__eq__] has it. *)
Record Path := mkPath { root : str; tail : list str }.

#[global] Instance Path_eq_dec : EqDecision Path.
Proof. solve_decision. Defined.

(** [splitroot]: exactly two leading slashes are kept as the root ["//"],
    any other number of them is the root ["/"]. *)
Definition splitroot (part : str) : str * str :=
  if startswith part (py "/") then
    let stripped_part := lstrip_char 0x2f part in
    if (N.of_nat (length part) - N.of_nat (length stripped_part) =? 2)
    then (py "//", stripped_part)
    else (py "/", stripped_part)
  else ([], part).

(** A component is kept unless it is empty or ["."]. *)
Definition kept_part (x : str) : bool :=
  negb (bool_decide (x = [])) && negb (bool_decide (x = py ".")).

(** [Path(s)] *)
Definition Path_of (s : str) : Path :=
  let '(rt, rel) := splitroot s in
  mkPath rt (List.filter kept_part (split_on 0x2f rel)).

(** [p.parent]: a path that is only a root is its own parent, and so is
    the empty relative path. *)
Definition parent (p : Path) : Path :=
  mkPath (root p) (removelast (tail p)).

(** [str(p)], which is also [os.fspath(p)]. *)
Definition Path_str (p : Path) : str :=
  match root p with
  | _ :: _ => root p ++ str_join (py "/") (tail p)
  | [] => match str_join (py "/") (tail p) with
          | [] => py "."
          | s => s
          end
  end.

(** ** [os.path.join] *)

(** One step of [posixpath.join]: an absolute component replaces what came
    before it; otherwise it is appended, after a slash unless the path is
    empty or already ends with one. *)
Definition join_step (path b : str) : str :=
  if startswith b (py "/") then b
  else if bool_decide (path = []) || endswith path (py "/") then path ++ b
  else path ++ py "/" ++ b.

Definition os_path_join (a : str) (p : list str) : str :=
  fold_left join_step p a.

(** ** The world outside the checker *)

(** What [open(file_path, 'r', encoding='utf-8')] followed by [f.read()]
    gives: the decoded text, [FileNotFoundError], or any other exception
    (permission, decoding, a directory in place of the file, ...). *)
Inductive read_result :=
| Content (content : str)
| FileNotFoundError
| OtherException (e : str).

(** The outcome of one [requests.get] followed by [raise_for_status] and
    [json()]. *)
Inductive response (A : Type) :=
| Ok (json : A)
| RequestException (e : str).
Arguments Ok {A} json.
Arguments RequestException {A} e.

(** The fields the checker reads from the three JSON documents. *)
Record mr_details := { iid : str; title : str }.
Record approval := { username : option str }.
Record change := { new_path : option str; old_path : option str }.

Record world := {
  open_read : str -> read_result;
  merge_request : response mr_details;
  approved_by : response (list approval);
  changes : response (list change)
}.

(** The attributes [__init__] stores in [self]. *)
Record checker := {
  ci_api_v4_url : str;
  ci_project_id : str;
  ci_merge_request_iid : str;
  ci_project_dir : str
}.

(** ** Traces *)

(** One event per [open], per HTTP request and per [print] statement of the
    source, carrying the values the statement interpolates. *)
Inductive event :=
| Open (file_path : str)                          (* line 91 *)
| HttpGet (url : str)                             (* lines 37, 49, 71 *)
| PrintUrl (url : str)                            (* line 34 *)
| PrintFetchError (what e : str)                  (* lines 41, 63, 85 *)
| PrintLine (line : str)                          (* line 96 *)
| PrintReadError (file_path e : str)              (* line 115 *)
| PrintCurrentPath (current_path : Path)          (* line 122 *)
| PrintCodeownersPath (codeowners_path : str)     (* line 127 *)
| PrintStarting                                   (* line 145 *)
| PrintCheckingMR (iid title : str)               (* line 149 *)
| PrintNoApprovals                                (* line 154 *)
| PrintApprovers (approvers : list str)           (* line 157 *)
| PrintNoFilesChanged                             (* line 162 *)
| PrintChangedFiles (n : nat)                     (* line 165 *)
| PrintChangedFile (file : str)                   (* line 167 *)
| PrintChecking (file_path : str)                 (* line 173 *)
| PrintNoCodeowners                               (* line 179 *)
| PrintRequiredOwners (file_owners : gset str)    (* line 182 *)
| PrintAuthorized (authorized : gset str)         (* line 188 *)
| PrintNoAuthorized                               (* line 190 *)
| PrintRequired (file_owners : gset str)          (* line 191 *)
| PrintActual (approvers : list str)              (* line 192 *)
| PrintFailed                                     (* lines 196-197 *)
| PrintPassed.                                    (* lines 200-201 *)

#[global] Instance event_eq_dec : EqDecision event.
Proof. solve_decision. Defined.

(** How a computation ends: it returns, it leaves the process through
    [sys.exit], or its loop is still running when the fuel is spent. *)
Inductive result (A : Type) :=
| Done (a : A)
| SysExit (code : N)
| OutOfFuel.
Arguments Done {A} a.
Arguments SysExit {A} code.
Arguments OutOfFuel {A}.

(** A computation: the events it performed, in order, and how it ended. *)
Definition run (A : Type) : Type := list event * result A.

#[global] Instance run_ret : MRet run := fun A a => ([], Done a).

#[global] Instance run_bind : MBind run := fun A B f m =>
  match m with
  | (t, Done a) => let '(t', r) := f a in (t ++ t', r)
  | (t, SysExit code) => (t, SysExit code)
  | (t, OutOfFuel) => (t, OutOfFuel)
  end.

Definition emit (e : event) : run unit := ([e], Done tt).
Definition sys_exit {A} (code : N) : run A := ([], SysExit code).
Definition out_of_fuel {A} : run A := ([], OutOfFuel).

Definition trace {A} (m : run A) : list event := fst m.
Definition outcome {A} (m : run A) : result A := snd m.

(** [for x in xs: body], threading the variables the body assigns. *)
Fixpoint for_in {A S : Type} (xs : list A) (body : A -> S -> run S) (s : S)
  : run S :=
  match xs with
  | [] => mret s
  | x :: xs' => s' ← body x s; for_in xs' body s'
  end.

(** Truth value of an optional string: [None] and [''] are false. *)
Definition truthy (o : option str) : bool :=
  match o with
  | Some (_ :: _) => true
  | _ => false
  end.

(** The files a trace opened, in order. *)
Definition opened (t : list event) : list str :=
  omap (fun e => match e with Open p => Some p | _ => None end) t.

(** ** The GitLab getters (lines 31-86) *)

Definition base_url (self : checker) : str :=
  ci_api_v4_url self ++ py "/projects/" ++ ci_project_id self.

Definition get_mr_details (self : checker) (w : world) : run mr_details :=
  let url := base_url self ++ py "/merge_requests/" ++ ci_merge_request_iid self in
  emit (PrintUrl url);;
  emit (HttpGet url);;
  match merge_request w with
  | Ok json => mret json
  | RequestException e =>
      emit (PrintFetchError (py "MR details") e);; sys_exit 1
  end.

Definition get_mr_approvals (self : checker) (w : world) : run (list str) :=
  let url := base_url self ++ py "/merge_requests/"
               ++ ci_merge_request_iid self ++ py "/approvals" in
  emit (HttpGet url);;
  match approved_by w with
  | Ok approvals_data =>
      mret (fold_left
              (fun approvers a =>
                 match username a with
                 | Some u => if truthy (Some u) then approvers ++ [u]
                             else approvers
                 | None => approvers
                 end)
              approvals_data [])
  | RequestException e =>
      emit (PrintFetchError (py "MR approvals") e);; sys_exit 1
  end.

Definition get_changed_files (self : checker) (w : world) : run (list str) :=
  let url := base_url self ++ py "/merge_requests/"
               ++ ci_merge_request_iid self ++ py "/changes" in
  emit (HttpGet url);;
  match changes w with
  | Ok changes_data =>
      mret (fold_left
              (fun changed_files c =>
                 let changed_files :=
                   match new_path c with
                   | Some p => if truthy (Some p) then changed_files ++ [p]
                               else changed_files
                   | None => changed_files
                   end in
                 match old_path c with
                 | Some p =>
                     if truthy (Some p)
                        && negb (bool_decide (old_path c = new_path c))
                     then changed_files ++ [p] else changed_files
                 | None => changed_files
                 end)
              changes_data [])
  | RequestException e =>
      emit (PrintFetchError (py "MR changes") e);; sys_exit 1
  end.

(** ** [read_codeowners_file] (lines 88-116) *)

(** Lines 104-109: the inner loop over the words of one line. *)
Definition add_word (word : str) (owners : gset str) : gset str :=
  if startswith word (py "@") then {[ List.tl word ]} ∪ owners
  else if negb (bool_decide (word = []))
          && negb (startswith word (py "/"))
          && negb (startswith word (py "*"))
       then {[ word ]} ∪ owners
       else owners.

Definition add_words (words : list str) (owners : gset str) : gset str :=
  fold_left (fun owners word => add_word word owners) words owners.

(** Lines 95-109: the body of the loop over the lines of the file. *)
Definition read_line (line : str) (owners : gset str) : run (gset str) :=
  emit (PrintLine line);;
  let line := strip line in
  if bool_decide (line = []) || startswith line (py "#") then mret owners
  else mret (add_words (split line) owners).

(** Lines 94-111: the owners of a manifest text. *)
Definition extract_owners (content : str) : run (gset str) :=
  for_in (splitlines content) read_line ∅.

Definition read_codeowners_file (w : world) (file_path : str)
  : run (gset str) :=
  emit (Open file_path);;
  match open_read w file_path with
  | Content content => extract_owners content
  | FileNotFoundError => mret ∅
  | OtherException e => emit (PrintReadError file_path e);; mret ∅
  end.

(** ** [get_codeowners_for_file] (lines 118-141) *)

Definition CODEOWNERS_md : str := py "CODEOWNERS.md".

(** Lines 125-135: the [while True] loop, from [current_path] on. *)
Fixpoint walk (fuel : nat) (self : checker) (w : world)
    (current_path : Path) (all_owners : gset str) : run (gset str) :=
  match fuel with
  | O => out_of_fuel
  | S fuel' =>
      let codeowners_path :=
        os_path_join (ci_project_dir self)
                     [Path_str current_path; CODEOWNERS_md] in
      emit (PrintCodeownersPath codeowners_path);;
      owners ← read_codeowners_file w codeowners_path;
      let all_owners := all_owners ∪ owners in
      if bool_decide (current_path = Path_of (py "."))
         || bool_decide (current_path = Path_of (py "/"))
      then mret all_owners
      else walk fuel' self w (parent current_path) all_owners
  end.

Definition get_codeowners_for_file (fuel : nat) (self : checker) (w : world)
    (file_path : str) : run (gset str) :=
  let current_path := parent (Path_of file_path) in
  emit (PrintCurrentPath current_path);;
  all_owners ← walk fuel self w current_path ∅;
  let root_codeowners := os_path_join (ci_project_dir self) [CODEOWNERS_md] in
  owners ← read_codeowners_file w root_codeowners;
  mret (all_owners ∪ owners).

(** ** [validate_approvals] (lines 143-202) *)

(** Lines 173-193: the body of the loop over the changed files; the
    variable it assigns is [validation_failed]. *)
Definition check_file (fuel : nat) (self : checker) (w : world)
    (approvers : list str) (file_path : str) (validation_failed : bool)
  : run bool :=
  emit (PrintChecking file_path);;
  file_owners ← get_codeowners_for_file fuel self w file_path;
  if bool_decide (file_owners = ∅) then
    emit PrintNoCodeowners;; mret validation_failed
  else
    emit (PrintRequiredOwners file_owners);;
    let authorized_approvers : gset str :=
      list_to_set approvers ∩ file_owners in
    if negb (bool_decide (authorized_approvers = ∅)) then
      emit (PrintAuthorized authorized_approvers);; mret validation_failed
    else
      emit PrintNoAuthorized;;
      emit (PrintRequired file_owners);;
      emit (PrintActual approvers);;
      mret true.

Definition validate_approvals (fuel : nat) (self : checker) (w : world)
  : run bool :=
  emit PrintStarting;;
  details ← get_mr_details self w;
  emit (PrintCheckingMR (iid details) (title details));;
  approvers ← get_mr_approvals self w;
  if bool_decide (approvers = []) then
    emit PrintNoApprovals;; mret false
  else
    emit (PrintApprovers approvers);;
    changed_files ← get_changed_files self w;
    if bool_decide (changed_files = []) then
      emit PrintNoFilesChanged;; mret true
    else
      emit (PrintChangedFiles (length changed_files));;
      for_in changed_files (fun file (_ : unit) => emit (PrintChangedFile file)) tt;;
      validation_failed ←
        for_in changed_files (check_file fuel self w approvers) false;
      if (validation_failed : bool) then emit PrintFailed;; mret false
      else emit PrintPassed;; mret true.

(** * Specification-side definitions *)

(** ** The manifest parser, as the specification words it *)

(** A trimmed line carries declarations unless it is blank or a comment. *)
Definition spec_declaration_line (trimmed : str) : bool :=
  negb (bool_decide (trimmed = [])) && negb (startswith trimmed (py "#")).

(** The owner a token names, if any: a mention loses its marker, a path
    pattern names nobody, any other token is a bare owner name. *)
Definition spec_token_owner (token : str) : option str :=
  if startswith token (py "@") then Some (List.tl token)
  else if startswith token (py "/") || startswith token (py "*") then None
  else Some token.

Definition spec_tokens (text : str) : list str :=
  concat (List.map split
            (List.filter spec_declaration_line
               (List.map strip (splitlines text)))).

Definition spec_parse (text : str) : gset str :=
  list_to_set (omap spec_token_owner (spec_tokens text)).

(** ** Declared owners and the ancestor chain *)

(** The owners one manifest location contributes. *)
Definition declared (w : world) (file_path : str) : gset str :=
  match open_read w file_path with
  | Content content => spec_parse content
  | FileNotFoundError | OtherException _ => ∅
  end.

(** The manifest location of a directory, and of the repository root. *)
Definition manifest_path (self : checker) (d : Path) : str :=
  os_path_join (ci_project_dir self) [Path_str d; CODEOWNERS_md].

Definition root_manifest (self : checker) : str :=
  os_path_join (ci_project_dir self) [CODEOWNERS_md].

(** A directory followed by its [n] nearest ancestors. *)
Fixpoint ancestors_upto (n : nat) (d : Path) : list Path :=
  match n with
  | O => [d]
  | S n' => d :: ancestors_upto n' (parent d)
  end.

(** The ancestor chain of a directory: the directory itself, then each
    parent in turn, down to the path without components. *)
Definition ancestors (d : Path) : list Path :=
  ancestors_upto (length (tail d)) d.

(** The manifest locations [get_codeowners_for_file] visits when its walk
    terminates. *)
Definition visited (self : checker) (file_path : str) : list str :=
  List.map (manifest_path self) (ancestors (parent (Path_of file_path)))
  ++ [root_manifest self].

(** The union of everything declared along the chain and at the root. *)
Definition resolved (self : checker) (w : world) (file_path : str)
  : gset str :=
  ⋃ (List.map (declared w) (visited self file_path)).

(** ** Paths on which the walk terminates *)

(** The walk stops at a path without components whose root is empty or a
    single slash; from a path with any other root it never does. *)
Definition walk_stops (p : Path) : Prop :=
  root p = [] \/ root p = py "/".

(** A path string that starts with exactly two slashes: [pathlib] keeps
    ["//"] as its root. *)
Definition double_slash_rooted (file_path : str) : bool :=
  startswith file_path (py "//") && negb (startswith file_path (py "///")).

(** The iterations the walk of [file_path] makes when it terminates: one
    for each directory of the ancestor chain. *)
Definition iterations (file_path : str) : nat :=
  S (length (tail (parent (Path_of file_path)))).

(** Fuel that lets the walk of every listed file reach its [break]. *)
Definition walk_fuel (files : list str) : nat :=
  list_max (List.map iterations files).

(** ** Verdicts *)

(** The three per-file verdicts the report distinguishes. *)
Inductive verdict := NoOwnersDeclared | Pass | Fail.

#[global] Instance verdict_eq_dec : EqDecision verdict.
Proof. solve_decision. Defined.

(** The decision rule of the specification on a resolved owner set. *)
Definition spec_verdict (approvers : list str) (owners : gset str)
  : verdict :=
  if bool_decide (owners = ∅) then NoOwnersDeclared
  else if bool_decide (list_to_set approvers ∩ owners = (∅ : gset str))
       then Fail else Pass.

(** The verdict a trace reports: lines 179, 188 and 190 of the source. *)
Definition reported_verdict (t : list event) : option verdict :=
  if bool_decide (PrintNoAuthorized ∈ t) then Some Fail
  else if existsb (fun e => match e with PrintAuthorized _ => true
                                       | _ => false end) t
       then Some Pass
  else if bool_decide (PrintNoCodeowners ∈ t) then Some NoOwnersDeclared
  else None.

(** The verdict [validate_approvals] reports for one changed file. *)
Definition file_verdict (fuel : nat) (self : checker) (w : world)
    (approvers : list str) (file_path : str) : option verdict :=
  reported_verdict (trace (check_file fuel self w approvers file_path false)).

(** An event that reports a per-file verdict. *)
Definition verdict_event (e : event) : bool :=
  match e with
  | PrintNoAuthorized | PrintAuthorized _ | PrintNoCodeowners => true
  | _ => false
  end.

(** Events the loop over the changed files can perform. *)
Definition file_event (e : event) : bool :=
  match e with
  | Open _ | PrintLine _ | PrintReadError _ _ | PrintCurrentPath _
  | PrintCodeownersPath _ | PrintChecking _ | PrintNoCodeowners
  | PrintRequiredOwners _ | PrintAuthorized _ | PrintNoAuthorized
  | PrintRequired _ | PrintActual _ => true
  | _ => false
  end.

(** ** The traces of terminating runs *)

(** The events of one manifest read. *)
Definition read_events (w : world) (file_path : str) : list event :=
  Open file_path ::
  match open_read w file_path with
  | Content content => List.map PrintLine (splitlines content)
  | FileNotFoundError => []
  | OtherException e => [PrintReadError file_path e]
  end.

(** The events of the walk over the directories [ds], in order. *)
Definition walk_events (self : checker) (w : world) (ds : list Path)
  : list event :=
  flat_map (fun d => PrintCodeownersPath (manifest_path self d)
                     :: read_events w (manifest_path self d)) ds.

(** The events of one terminating resolution. *)
Definition resolve_events (self : checker) (w : world) (file_path : str)
  : list event :=
  PrintCurrentPath (parent (Path_of file_path))
    :: walk_events self w (ancestors (parent (Path_of file_path)))
    ++ read_events w (root_manifest self).

(** The events that report the verdict on [owners]. *)
Definition verdict_events (approvers : list str) (owners : gset str)
  : list event :=
  match spec_verdict approvers owners with
  | NoOwnersDeclared => [PrintNoCodeowners]
  | Pass => [PrintRequiredOwners owners;
             PrintAuthorized (list_to_set approvers ∩ owners)]
  | Fail => [PrintRequiredOwners owners; PrintNoAuthorized;
             PrintRequired owners; PrintActual approvers]
  end.

(** The events of the loop body on one changed file. *)
Definition check_events (self : checker) (w : world) (approvers : list str)
    (file_path : str) : list event :=
  PrintChecking file_path :: resolve_events self w file_path
    ++ verdict_events approvers (resolved self w file_path).

Definition details_url (self : checker) : str :=
  base_url self ++ py "/merge_requests/" ++ ci_merge_request_iid self.

Definition approvals_url (self : checker) : str :=
  base_url self ++ py "/merge_requests/" ++ ci_merge_request_iid self
    ++ py "/approvals".

Definition changes_url (self : checker) : str :=
  base_url self ++ py "/merge_requests/" ++ ci_merge_request_iid self
    ++ py "/changes".

(** The events of a run up to the approvals request. *)
Definition preamble (self : checker) (details : mr_details) : list event :=
  [PrintStarting; PrintUrl (details_url self); HttpGet (details_url self);
   PrintCheckingMR (iid details) (title details);
   HttpGet (approvals_url self)].

(** Some listed file gets the fail verdict. *)
Definition any_file_fails (self : checker) (w : world)
    (approvers files : list str) : bool :=
  existsb (fun f => bool_decide
                      (spec_verdict approvers (resolved self w f) = Fail))
          files.

(** The events of a run whose walks all terminate. *)
Definition run_events (self : checker) (w : world) (details : mr_details)
    (approvers changed_files : list str) : list event :=
  preamble self details
  ++ [PrintApprovers approvers; HttpGet (changes_url self);
      PrintChangedFiles (length changed_files)]
  ++ List.map PrintChangedFile changed_files
  ++ flat_map (check_events self w approvers) changed_files
  ++ [if any_file_fails self w approvers changed_files
      then PrintFailed else PrintPassed].

(** ** Changing one file of the world *)

Definition update_file (w : world) (loc : str) (r : read_result) : world :=
  {| open_read := fun file_path =>
       if bool_decide (file_path = loc) then r else open_read w file_path;
     merge_request := merge_request w;
     approved_by := approved_by w;
     changes := changes w |}.

(** Adding the declaration text [decl] to the manifest at [loc]: it goes on
    a new line after the present text, or makes up the manifest where there
    was none. *)
Definition add_declaration (w : world) (loc decl : str) : world :=
  update_file w loc
    match open_read w loc with
    | Content content => Content (content ++ [0xa] ++ decl)
    | FileNotFoundError => Content decl
    | OtherException e => OtherException e
    end.

(** Two resolutions of one file in one run. *)
Definition resolve_twice (fuel : nat) (self : checker) (w : world)
    (file_path : str) : run (gset str * gset str) :=
  first ← get_codeowners_for_file fuel self w file_path;
  second ← get_codeowners_for_file fuel self w file_path;
  mret (first, second).

(** ** Locations below the repository root *)

Definition is_absolute (p : str) : bool := startswith p (py "/").

(** One component of a lexical normalisation; [stack] holds the components
    kept so far, last one first.  Empty and ["."] components are dropped,
    [".."] removes the component before it, stays when there is nothing to
    remove in a relative path, and is dropped at the root of an absolute
    one. *)
Definition norm_step (absolute : bool) (stack : list str) (comp : str)
  : list str :=
  if bool_decide (comp = []) || bool_decide (comp = py ".") then stack
  else if bool_decide (comp = py "..") then
    match stack with
    | [] => if absolute then [] else [comp]
    | top :: below =>
        if bool_decide (top = py "..") then comp :: stack else below
    end
  else comp :: stack.

Definition normal_parts (p : str) : list str :=
  rev (fold_left (norm_step (is_absolute p)) (split_on 0x2f p) []).

(** [loc] names a place at or below [root_dir]: both are absolute or both
    relative, and the normalised [loc] is the normalised [root_dir] followed
    by components that never step back. *)
Definition below_root (root_dir loc : str) : bool :=
  bool_decide (is_absolute loc = is_absolute root_dir)
  && bool_decide (take (length (normal_parts root_dir)) (normal_parts loc)
                  = normal_parts root_dir)
  && negb (bool_decide
             (py ".." ∈ drop (length (normal_parts root_dir))
                             (normal_parts loc))).

(** A component that names a child: not empty, not ["."], not [".."], and
    free of slashes. *)
Definition plain (c : str) : Prop :=
  c <> [] /\ c <> py "." /\ c <> py ".." /\ ~ In 0x2f c.

(** The string [b] is relative and normalises to the components [cs],
    whatever was kept before it. *)
Definition spells (b : str) (cs : list str) : Prop :=
  startswith b (py "/") = false
  /\ forall (absolute : bool) (stack : list str),
       fold_left (norm_step absolute) (split_on 0x2f b) stack
       = rev cs ++ stack.

(** ** Scenarios *)

(** A file system holding the listed files and nothing else; a path
    string reaches a file when both normalise to the same components. *)
Fixpoint file_system (files : list (str * read_result)) (file_path : str)
  : read_result :=
  match files with
  | [] => FileNotFoundError
  | (name, r) :: files' =>
      if bool_decide (is_absolute file_path = is_absolute name)
         && bool_decide (normal_parts file_path = normal_parts name)
      then r else file_system files' file_path
  end.

Definition scenario_checker (project_dir : string) : checker :=
  {| ci_api_v4_url := py "https://gitlab.example/api/v4";
     ci_project_id := py "42";
     ci_merge_request_iid := py "7";
     ci_project_dir := py project_dir |}.

Definition scenario_details : mr_details :=
  {| iid := py "7"; title := py "Update" |}.

(** The merge request of the scenarios: the given approvers, and changes
    that touch the given paths. *)
Definition scenario_world (files : list (str * read_result))
    (approvers changed : list string) : world :=
  {| open_read := file_system files;
     merge_request := Ok scenario_details;
     approved_by :=
       Ok (List.map (fun a => {| username := Some (py a) |}) approvers);
     changes :=
       Ok (List.map (fun p => {| new_path := Some (py p);
                                  old_path := Some (py p) |}) changed) |}.

(** The manifests of scenario B of the specification: the root manifest
    declares [@alice], the manifest of [src] declares [@bob]. *)
Definition scenario_files : list (str * read_result) :=
  [(py "CODEOWNERS.md", Content (py "@alice"));
   (py "src/CODEOWNERS.md", Content (py "@bob"))].

(** The checker of the scenarios, run from the repository root. *)
Definition here : checker := scenario_checker ".".

(** Scenario B: [src/sub/b.txt] changed, approved by [carol]. *)
Definition scenario_B : world :=
  scenario_world scenario_files ["carol"%string] ["src/sub/b.txt"%string].

(** Scenario C: the same change, approved by [bob]. *)
Definition scenario_C : world :=
  scenario_world scenario_files ["bob"%string] ["src/sub/b.txt"%string].

(** Scenario D: the manifest of [docs] holds the line [/docs/* @dave]. *)
Definition scenario_D : world :=
  scenario_world
    [(py "docs/CODEOWNERS.md", Content (py "/docs/* @dave"))] [] [].

(** Two changed files of one directory, approved by [bob]. *)
Definition scenario_siblings : world :=
  scenario_world scenario_files ["bob"%string]
    ["src/a.txt"%string; "src/b.txt"%string].

(** The change of scenario B without any approval. *)
Definition scenario_unapproved : world :=
  scenario_world scenario_files [] ["src/sub/b.txt"%string].

(** An approved merge request that changes no file. *)
Definition scenario_unchanged : world :=
  scenario_world scenario_files ["bob"%string] [].

(** Scenario B where the manifest of [src] cannot be read. *)
Definition scenario_unreadable : world :=
  update_file scenario_B (py "./src/CODEOWNERS.md")
    (OtherException (py "Permission denied")).

(** A merge request approved by [alice] whose one changed file is
    [//a/b.txt], over any manifests. *)
Definition scenario_double_slash (files : list (str * read_result)) : world :=
  scenario_world files ["alice"%string] ["//a/b.txt"%string].

(** A checker rooted at [/builds/proj], over the files of scenario B. *)
Definition builds_checker : checker := scenario_checker "/builds/proj".

Definition builds_world : world :=
  scenario_world
    [(py "/builds/proj/CODEOWNERS.md", Content (py "@alice"));
     (py "/builds/proj/src/CODEOWNERS.md", Content (py "@bob"))]
    ["bob"%string] ["src/sub/b.txt"%string].

(** * The entry point *)

(** ** [__init__] (lines 17-29) *)

(** The object [__init__] builds: the token, the four attributes the
    methods read, the request headers and the base URL. *)
Record CodeownersChecker := {
  gitlab_token : str;
  attributes : checker;
  headers : gmap str str;
  self_base_url : str
}.

(** How the constructor ends. *)
Inductive constructed :=
| Constructed (obj : CodeownersChecker)
| ValueError (message : str).

(** [os.environ] is a mapping from names to values; [environ.get(k)] is
    [None] for a missing name. *)
Definition init (environ : gmap str str) : constructed :=
  let token := environ !! py "GITLAB_TOKEN" in
  let api_v4_url := environ !! py "CI_API_V4_URL" in
  let project_id := environ !! py "CI_PROJECT_ID" in
  let merge_request_iid := environ !! py "CI_MERGE_REQUEST_IID" in
  let project_dir := default (py ".") (environ !! py "CI_PROJECT_DIR") in
  if negb (forallb truthy [token; api_v4_url; project_id; merge_request_iid])
  then ValueError (py "Missing required GitLab CI environment variables")
  else
    let self := {| ci_api_v4_url := default [] api_v4_url;
                   ci_project_id := default [] project_id;
                   ci_merge_request_iid := default [] merge_request_iid;
                   ci_project_dir := project_dir |} in
    Constructed
      {| gitlab_token := default [] token;
         attributes := self;
         headers := {[ py "PRIVATE-TOKEN" := default [] token ]};
         self_base_url := base_url self |}.

(** ** [main] (lines 204-214) *)

(** What [main] prints: the events of the checker, or the message of its
    own [except] branch (line 213). *)
Inductive main_event :=
| Ran (e : event)
| PrintScriptFailed (e : str).

(** [main] never returns: it leaves through [sys.exit] in the [try] block,
    which [except Exception] does not catch, or in the [except] block. *)
Definition main (fuel : nat) (environ : gmap str str) (w : world)
  : list main_event * result Empty_set :=
  match init environ with
  | ValueError e => ([PrintScriptFailed e], SysExit 1)
  | Constructed checker =>
      match validate_approvals fuel (attributes checker) w with
      | (t, Done success) =>
          (List.map Ran t, SysExit (if success then 0 else 1))
      | (t, SysExit code) => (List.map Ran t, SysExit code)
      | (t, OutOfFuel) => (List.map Ran t, OutOfFuel)
      end
  end.

(** The variables [__init__] cannot do without. *)
Definition required_variables : list str :=
  [py "GITLAB_TOKEN"; py "CI_API_V4_URL"; py "CI_PROJECT_ID";
   py "CI_MERGE_REQUEST_IID"].

(** A variable that is set to a non-empty value. *)
Definition is_set (environ : gmap str str) (name : str) : Prop :=
  exists value, environ !! name = Some value /\ value <> [].

Definition missing_variables : str :=
  py "Missing required GitLab CI environment variables".

(** ** What the getters extract *)

(** The username an approval contributes: none when the key is missing or
    the name is empty. *)
Definition approver_of (a : approval) : option str :=
  if truthy (username a) then username a else None.

(** The paths a change contributes: its new path, then its old path when
    that is a different one. *)
Definition paths_of (c : change) : list str :=
  (if truthy (new_path c) then [default [] (new_path c)] else [])
  ++ (if truthy (old_path c) && negb (bool_decide (old_path c = new_path c))
      then [default [] (old_path c)] else []).

(** The requests of a trace, in order. *)
Definition requested (t : list event) : list str :=
  omap (fun e => match e with HttpGet url => Some url | _ => None end) t.

(** The walk of [file_path] reaches its [break] within [fuel] iterations. *)
Definition resolvable (fuel : nat) (file_path : str) : bool :=
  negb (double_slash_rooted file_path)
  && (iterations file_path <=? fuel)%nat.

(** The outcome of a run, read off the three responses. *)
Definition run_outcome (fuel : nat) (self : checker) (w : world)
  : result bool :=
  match merge_request w with
  | RequestException _ => SysExit 1
  | Ok _ =>
      match approved_by w with
      | RequestException _ => SysExit 1
      | Ok approvals_data =>
          let approvers := omap approver_of approvals_data in
          if bool_decide (approvers = []) then Done false
          else
            match changes w with
            | RequestException _ => SysExit 1
            | Ok changes_data =>
                let changed_files := flat_map paths_of changes_data in
                if bool_decide (changed_files = []) then Done true
                else if forallb (resolvable fuel) changed_files
                     then Done (negb (any_file_fails self w approvers
                                        changed_files))
                     else OutOfFuel
            end
      end
  end.

(** The variables of a pipeline job that sets no project directory. *)
Definition job_environ : gmap str str :=
  {[ py "GITLAB_TOKEN" := py "glpat-secret";
     py "CI_API_V4_URL" := py "https://gitlab.example/api/v4";
     py "CI_PROJECT_ID" := py "42";
     py "CI_MERGE_REQUEST_IID" := py "7" ]}.

(** The object [__init__] builds from [job_environ]. *)
Definition job_checker : CodeownersChecker :=
  {| gitlab_token := py "glpat-secret";
     attributes := scenario_checker ".";
     headers := {[ py "PRIVATE-TOKEN" := py "glpat-secret" ]};
     self_base_url := py "https://gitlab.example/api/v4/projects/42" |}.

(** Scenario B with a renamed file among the changes and an approval
    without a username. *)
Definition scenario_rename : world :=
  {| open_read := file_system scenario_files;
     merge_request := Ok scenario_details;
     approved_by := Ok [ {| username := None |};
                         {| username := Some (py "bob") |};
                         {| username := Some [] |} ];
     changes := Ok [ {| new_path := Some (py "src/new.txt");
                        old_path := Some (py "docs/old.txt") |};
                     {| new_path := Some (py "src/a.txt");
                        old_path := Some (py "src/a.txt") |} ] |}.

(** A world where the manifest of the root holds a lone [@]. *)
Definition scenario_lone_marker : world :=
  scenario_world [(py "CODEOWNERS.md", Content (py "@"))]
    ["bob"%string] ["a.txt"%string].

(** A world whose requests fail from the given one on (1, 2 or 3). *)
Definition scenario_outage (first_failure : nat) : world :=
  {| open_read := file_system scenario_files;
     merge_request :=
       if (first_failure <=? 1)%nat then RequestException (py "503")
       else Ok scenario_details;
     approved_by :=
       if (first_failure <=? 2)%nat then RequestException (py "503")
       else Ok [ {| username := Some (py "bob") |} ];
     changes := RequestException (py "503") |}.


(** * Properties *)

(** ** The library functions on examples *)

Example Path_of_examples :
  Path_of (py "a//b/./c/") = mkPath [] [py "a"; py "b"; py "c"]
  /\ Path_of (py "///a/b") = mkPath (py "/") [py "a"; py "b"]
  /\ Path_of (py "//a/b") = mkPath (py "//") [py "a"; py "b"]
  /\ Path_of [] = Path_of (py ".")
  /\ parent (Path_of (py "a")) = Path_of (py ".")
  /\ parent (Path_of (py "/a")) = Path_of (py "/")
  /\ Path_str (Path_of []) = py "."
  /\ Path_str (Path_of (py "a/b/../c")) = py "a/b/../c"
  /\ os_path_join (py ".") [Path_str (Path_of (py ".")); py "C"] = py "././C"
  /\ os_path_join (py "/r") [py "/etc"; py "C"] = py "/etc/C"
  /\ os_path_join (py "/r/") [py "a"; py "C"] = py "/r/a/C"
  /\ os_path_join [] [py "a"; py "C"] = py "a/C".
Proof. vm_compute. repeat split. Qed.

Example str_examples :
  splitlines (py "a" ++ [0xd; 0xa] ++ py "b" ++ [0xa; 0xa] ++ py "c")
    = [py "a"; py "b"; []; py "c"]
  /\ splitlines [] = []
  /\ splitlines [0xa] = [[]]
  /\ splitlines (py "a" ++ [0xd]) = [py "a"]
  /\ split (py " a" ++ [0x1f] ++ py "b  cd ") = [py "a"; py "b"; py "cd"]
  /\ strip (py "  x y ") = py "x y"
  /\ split_on 0x2f (py "a//b/") = [py "a"; []; py "b"; []]
  /\ split_on 0x2f [] = [[]].
Proof. vm_compute. repeat split. Qed.

(** ** The trace monad *)

Lemma bind_done {A B} (t : list event) (a : A) (f : A -> run B) :
  ((t, Done a) ≫= f) = (t ++ trace (f a), outcome (f a)).
Proof. unfold mbind, run_bind. destruct (f a) as [t' r]. reflexivity. Qed.

Lemma bind_exit {A B} (t : list event) code (f : A -> run B) :
  ((t, SysExit code) ≫= f) = (t, SysExit code).
Proof. reflexivity. Qed.

Lemma bind_out_of_fuel {A B} (t : list event) (f : A -> run B) :
  ((t, OutOfFuel) ≫= f) = (t, OutOfFuel).
Proof. reflexivity. Qed.

Lemma emit_bind {B} (e : event) (f : unit -> run B) :
  (emit e ≫= f) = (e :: trace (f tt), outcome (f tt)).
Proof. unfold emit. rewrite bind_done. reflexivity. Qed.

Lemma emit_then {B} (e : event) (m : run B) :
  (emit e ;; m) = (e :: trace m, outcome m).
Proof. unfold emit. rewrite bind_done. reflexivity. Qed.

Lemma for_in_nil {A S} (body : A -> S -> run S) (s : S) :
  for_in [] body s = ([], Done s).
Proof. reflexivity. Qed.

Lemma for_in_cons {A S} (x : A) (xs : list A) (body : A -> S -> run S)
    (s : S) :
  for_in (x :: xs) body s = (body x s ≫= fun s' => for_in xs body s').
Proof. reflexivity. Qed.

Lemma trace_bind {A B} (m : run A) (f : A -> run B) :
  trace (m ≫= f)
  = trace m ++ match outcome m with
               | Done a => trace (f a)
               | _ => []
               end.
Proof.
  destruct m as [t [a| |]].
  - rewrite bind_done. reflexivity.
  - simpl. rewrite app_nil_r. reflexivity.
  - simpl. rewrite app_nil_r. reflexivity.
Qed.

Lemma outcome_bind {A B} (m : run A) (f : A -> run B) :
  outcome (m ≫= f)
  = match outcome m with
    | Done a => outcome (f a)
    | SysExit code => SysExit code
    | OutOfFuel => OutOfFuel
    end.
Proof.
  destruct m as [t [a| |]]; [rewrite bind_done|..]; reflexivity.
Qed.

Lemma run_eta {A} (m : run A) : m = (trace m, outcome m).
Proof. destruct m; reflexivity. Qed.

(** ** Strings *)

Lemma split_from_nonempty (s cur : list N) :
  Forall (fun word => word <> []) (split_from cur s).
Proof.
  revert cur. induction s as [|c s IH]; intros cur; simpl.
  - destruct cur as [|x cur]; constructor; [|constructor].
    intros E. apply (f_equal (@length N)) in E.
    rewrite length_rev in E. discriminate.
  - destruct (isspace c).
    + destruct cur as [|x cur]; [apply IH|].
      constructor; [|apply IH].
      intros E. apply (f_equal (@length N)) in E.
      rewrite length_rev in E. discriminate.
    + apply IH.
Qed.

(** ** The manifest parser *)

Lemma add_word_spec (word : list N) (owners : gset (list N)) :
  word <> [] ->
  add_word word owners
  = owners ∪ list_to_set (omap spec_token_owner [word]).
Proof.
  intros Hne.
  change (omap spec_token_owner [word])
    with (match spec_token_owner word with
          | Some owner => [owner]
          | None => []
          end).
  unfold add_word, spec_token_owner.
  rewrite bool_decide_eq_false_2 by exact Hne.
  destruct (startswith word (py "@")); [simpl; set_solver|].
  destruct (startswith word (py "/")); [simpl; set_solver|].
  destruct (startswith word (py "*")); simpl; set_solver.
Qed.

Lemma add_words_spec (words : list (list N)) (owners : gset (list N)) :
  Forall (fun word => word <> []) words ->
  add_words words owners = owners ∪ list_to_set (omap spec_token_owner words).
Proof.
  unfold add_words. intros H. revert owners.
  induction H as [|word words Hne _ IH]; intros owners; simpl.
  - set_solver.
  - rewrite IH, add_word_spec by exact Hne. simpl.
    destruct (spec_token_owner word); simpl; set_solver.
Qed.

Lemma read_line_spec (line : list N) (owners : gset (list N)) :
  read_line line owners
  = ([PrintLine line],
     Done (owners ∪ list_to_set
             (omap spec_token_owner
                (concat (List.map split
                   (List.filter spec_declaration_line [strip line])))))).
Proof.
  unfold read_line. rewrite emit_then. simpl.
  unfold spec_declaration_line.
  destruct (bool_decide (strip line = [])); simpl.
  { f_equal. f_equal. set_solver. }
  destruct (startswith (strip line) (py "#")); simpl.
  { f_equal. f_equal. set_solver. }
  rewrite app_nil_r.
  rewrite add_words_spec by apply split_from_nonempty. reflexivity.
Qed.

Lemma for_in_read_line (lines : list (list N)) (owners : gset (list N)) :
  for_in lines read_line owners
  = (List.map PrintLine lines,
     Done (owners ∪ list_to_set
             (omap spec_token_owner
                (concat (List.map split
                   (List.filter spec_declaration_line
                      (List.map strip lines))))))).
Proof.
  revert owners. induction lines as [|line lines IH]; intros owners; simpl.
  - unfold mret, run_ret. f_equal. f_equal. set_solver.
  - rewrite read_line_spec, bind_done, IH. simpl. f_equal. f_equal.
    destruct (spec_declaration_line (strip line)); simpl.
    + rewrite app_nil_r, omap_app, list_to_set_app_L. set_solver.
    + set_solver.
Qed.

Lemma extract_owners_spec (content : list N) :
  extract_owners content
  = (List.map PrintLine (splitlines content), Done (spec_parse content)).
Proof.
  unfold extract_owners. rewrite for_in_read_line.
  unfold spec_parse, spec_tokens. f_equal. f_equal. set_solver.
Qed.

(** ** Reading one manifest *)

Section Walk.

Context (self : checker) (w : world).

Lemma read_codeowners_file_spec (file_path : list N) :
  read_codeowners_file w file_path
  = (read_events w file_path, Done (declared w file_path)).
Proof.
  unfold read_codeowners_file, read_events, declared. rewrite emit_then.
  destruct (open_read w file_path) as [content| |e].
  - rewrite extract_owners_spec. reflexivity.
  - reflexivity.
  - rewrite emit_then. reflexivity.
Qed.

Lemma opened_app (t1 t2 : list event) :
  opened (t1 ++ t2) = opened t1 ++ opened t2.
Proof. apply omap_app. Qed.

Lemma opened_print_lines (lines : list (list N)) :
  opened (List.map PrintLine lines) = [].
Proof. induction lines as [|l lines IH]; [reflexivity|exact IH]. Qed.

Lemma opened_read_events (file_path : list N) :
  opened (read_events w file_path) = [file_path].
Proof.
  unfold read_events. destruct (open_read w file_path); simpl.
  - unfold opened at 1. simpl. f_equal. apply opened_print_lines.
  - reflexivity.
  - reflexivity.
Qed.

Lemma walk_events_cons (d : Path) (ds : list Path) :
  walk_events self w (d :: ds)
  = PrintCodeownersPath (manifest_path self d)
      :: read_events w (manifest_path self d) ++ walk_events self w ds.
Proof. reflexivity. Qed.

Lemma opened_walk_events (ds : list Path) :
  opened (walk_events self w ds) = List.map (manifest_path self) ds.
Proof.
  induction ds as [|d ds IH]; [reflexivity|].
  rewrite walk_events_cons.
  change (opened (PrintCodeownersPath ?p :: ?t)) with (opened t).
  rewrite opened_app, opened_read_events, IH. reflexivity.
Qed.

(** ** The ancestor walk *)

Lemma parent_root (p : Path) : root (parent p) = root p.
Proof. reflexivity. Qed.

Lemma parent_tail_length (p : Path) :
  length (tail (parent p)) = pred (length (tail p)).
Proof.
  unfold parent. simpl. destruct (tail p) as [|x l] using rev_ind.
  - reflexivity.
  - rewrite removelast_last, length_app. simpl. lia.
Qed.

Lemma at_boundary_iff (p : Path) :
  bool_decide (p = Path_of (py ".")) || bool_decide (p = Path_of (py "/"))
  = true
  <-> tail p = [] /\ walk_stops p.
Proof.
  unfold walk_stops. destruct p as [r t].
  change (Path_of (py ".")) with (mkPath [] []).
  change (Path_of (py "/")) with (mkPath (py "/") []).
  rewrite orb_true_iff, !bool_decide_eq_true. simpl. split.
  - intros [E|E]; inversion E; auto.
  - intros [-> [->| ->]]; auto.
Qed.

Lemma walk_step (fuel : nat) (p : Path) (acc : gset (list N)) :
  walk (S fuel) self w p acc
  = (PrintCodeownersPath (manifest_path self p)
       :: read_events w (manifest_path self p)
       ++ trace (if bool_decide (p = Path_of (py "."))
                    || bool_decide (p = Path_of (py "/"))
                 then mret (acc ∪ declared w (manifest_path self p))
                 else walk fuel self w (parent p)
                        (acc ∪ declared w (manifest_path self p))),
     outcome (if bool_decide (p = Path_of (py "."))
                 || bool_decide (p = Path_of (py "/"))
              then mret (acc ∪ declared w (manifest_path self p))
              else walk fuel self w (parent p)
                     (acc ∪ declared w (manifest_path self p)))).
Proof.
  change (walk (S fuel) self w p acc)
    with (emit (PrintCodeownersPath (manifest_path self p));;
          owners ← read_codeowners_file w (manifest_path self p);
          if bool_decide (p = Path_of (py "."))
             || bool_decide (p = Path_of (py "/"))
          then mret (acc ∪ owners)
          else walk fuel self w (parent p) (acc ∪ owners)).
  rewrite emit_then, read_codeowners_file_spec, bind_done. reflexivity.
Qed.

(** With enough fuel, the walk from a directory whose root is empty or a
    single slash visits its ancestor chain and returns the union of what
    is declared along it. *)
Lemma walk_spec (n : nat) :
  forall (p : Path) (acc : gset (list N)) (fuel : nat),
    length (tail p) = n -> walk_stops p -> (n < fuel)%nat ->
    walk fuel self w p acc
    = (walk_events self w (ancestors_upto n p),
       Done (acc ∪ ⋃ (List.map (declared w)
                        (List.map (manifest_path self)
                           (ancestors_upto n p))))).
Proof.
  induction n as [|n IH]; intros p acc fuel Hlen Hstop Hfuel;
    (destruct fuel as [|fuel]; [lia|]); rewrite walk_step.
  - assert (Hb : bool_decide (p = Path_of (py "."))
                 || bool_decide (p = Path_of (py "/")) = true).
    { apply at_boundary_iff. split; [|exact Hstop].
      destruct (tail p); [reflexivity|discriminate]. }
    rewrite Hb. simpl. rewrite !app_nil_r. f_equal. f_equal. set_solver.
  - assert (Hb : bool_decide (p = Path_of (py "."))
                 || bool_decide (p = Path_of (py "/")) = false).
    { apply not_true_iff_false. intros Hb. apply at_boundary_iff in Hb.
      destruct Hb as [Hb _]. rewrite Hb in Hlen. discriminate. }
    rewrite Hb.
    rewrite (IH (parent p)); [|rewrite parent_tail_length; lia
                              |exact Hstop|lia].
    simpl. f_equal. f_equal. set_solver.
Qed.

(** From a directory with any other root the walk never reaches its
    [break]: whatever the fuel, the loop is still running. *)
Lemma walk_diverges (fuel : nat) :
  forall (p : Path) (acc : gset (list N)),
    ~ walk_stops p -> outcome (walk fuel self w p acc) = OutOfFuel.
Proof.
  induction fuel as [|fuel IH]; intros p acc Hns; [reflexivity|].
  rewrite walk_step.
  assert (Hb : bool_decide (p = Path_of (py "."))
               || bool_decide (p = Path_of (py "/")) = false).
  { apply not_true_iff_false. intros Hb. apply at_boundary_iff in Hb.
    destruct Hb as [_ Hb]. contradiction. }
  rewrite Hb. simpl. apply IH. exact Hns.
Qed.

(** The fuel one resolution needs: one iteration per directory of the
    chain. *)
Lemma get_codeowners_for_file_spec (file_path : list N) (fuel : nat) :
  walk_stops (Path_of file_path) ->
  (iterations file_path <= fuel)%nat ->
  get_codeowners_for_file fuel self w file_path
  = (PrintCurrentPath (parent (Path_of file_path))
       :: walk_events self w (ancestors (parent (Path_of file_path)))
       ++ read_events w (root_manifest self),
     Done (resolved self w file_path)).
Proof.
  intros Hstop Hlen. unfold get_codeowners_for_file.
  rewrite emit_then.
  rewrite (walk_spec (length (tail (parent (Path_of file_path)))));
    [|reflexivity|exact Hstop|exact Hlen].
  rewrite bind_done. fold (root_manifest self).
  rewrite read_codeowners_file_spec, bind_done. simpl.
  rewrite app_nil_r. unfold resolved, visited, ancestors.
  f_equal. f_equal.
  rewrite List.map_app, union_list_app_L. simpl. set_solver.
Qed.

End Walk.

(** ** Roots of parsed paths *)

Lemma lstrip_char_length (sep : N) (s : list N) :
  (length (lstrip_char sep s) <= length s)%nat.
Proof.
  induction s as [|c s IH]; simpl; [lia|].
  destruct (c =? sep); simpl; lia.
Qed.

Lemma startswith_cons (c p : N) (s prefix : list N) :
  startswith (c :: s) (p :: prefix) = (c =? p) && startswith s prefix.
Proof. reflexivity. Qed.

Lemma startswith_nil (s : list N) : startswith s [] = true.
Proof. reflexivity. Qed.

Lemma startswith_of_nil (p : N) (prefix : list N) :
  startswith [] (p :: prefix) = false.
Proof. reflexivity. Qed.

Lemma lstrip_char_other (sep c : N) (s : list N) :
  c <> sep -> lstrip_char sep (c :: s) = c :: s.
Proof. intros H. simpl. rewrite (proj2 (N.eqb_neq c sep) H). reflexivity. Qed.

Lemma lstrip_char_same (sep : N) (s : list N) :
  lstrip_char sep (sep :: s) = lstrip_char sep s.
Proof. simpl. rewrite N.eqb_refl. reflexivity. Qed.

Ltac split_chars :=
  repeat match goal with
    | |- context [?c =? 47] =>
        is_var c; destruct (N.eqb_spec c 47) as [->|?]
    end.

Lemma splitroot_root (s : list N) :
  fst (splitroot s)
  = if startswith s (py "/")
    then if double_slash_rooted s then py "//" else py "/"
    else [].
Proof.
  unfold splitroot, double_slash_rooted.
  change (py "/") with [47]. change (py "//") with [47; 47].
  change (py "///") with [47; 47; 47].
  destruct s as [|c1 [|c2 [|c3 s]]];
    rewrite ?startswith_cons, ?startswith_nil, ?startswith_of_nil;
    split_chars; rewrite ?N.eqb_refl; cbn [andb negb];
    rewrite ?lstrip_char_same; rewrite ?lstrip_char_other by assumption;
    try reflexivity.
  all: pose proof (lstrip_char_length 47 s) as Hl; cbn [length] in *.
  all: match goal with
       | |- context [?a =? 2] => destruct (N.eqb_spec a 2) as [E|E]
       end.
  all: first [reflexivity | exfalso; lia].
Qed.

Lemma Path_of_root (s : list N) : root (Path_of s) = fst (splitroot s).
Proof. unfold Path_of. destruct (splitroot s). reflexivity. Qed.

Lemma walk_stops_Path_of (s : list N) :
  double_slash_rooted s = false -> walk_stops (Path_of s).
Proof.
  intros H. unfold walk_stops. rewrite Path_of_root, splitroot_root, H.
  destruct (startswith s (py "/")); auto.
Qed.

Lemma double_slash_never_stops (s : list N) :
  double_slash_rooted s = true -> ~ walk_stops (Path_of s).
Proof.
  intros H. unfold walk_stops. rewrite Path_of_root, splitroot_root, H.
  assert (Hs : startswith s (py "/") = true).
  { unfold double_slash_rooted in H. destruct s as [|c s]; [discriminate|].
    change (py "//") with [47; 47] in H. change (py "/") with [47].
    rewrite startswith_cons in *. rewrite startswith_nil.
    destruct (c =? 47); [reflexivity|discriminate]. }
  rewrite Hs. intros [E|E]; discriminate.
Qed.

(** ** Resolutions that return *)

Lemma resolve_outcome (self : checker) (w : world) (fuel : nat)
    (file_path : list N) :
  outcome (get_codeowners_for_file fuel self w file_path)
  = match outcome (walk fuel self w (parent (Path_of file_path)) ∅) with
    | Done all_owners =>
        Done (all_owners ∪ declared w (root_manifest self))
    | SysExit code => SysExit code
    | OutOfFuel => OutOfFuel
    end.
Proof.
  unfold get_codeowners_for_file. rewrite emit_then. cbn [outcome snd].
  rewrite outcome_bind.
  destruct (outcome (walk fuel self w (parent (Path_of file_path)) ∅));
    try reflexivity.
  fold (root_manifest self).
  rewrite read_codeowners_file_spec, bind_done. reflexivity.
Qed.

(** A path that starts with exactly two slashes is never resolved. *)
Lemma resolve_diverges (self : checker) (w : world) (fuel : nat)
    (file_path : list N) :
  double_slash_rooted file_path = true ->
  outcome (get_codeowners_for_file fuel self w file_path) = OutOfFuel.
Proof.
  intros H. rewrite resolve_outcome, walk_diverges; [reflexivity|].
  apply double_slash_never_stops in H. exact H.
Qed.

Lemma walk_done_inv (self : checker) (w : world) (fuel : nat) :
  forall (p : Path) (acc owners : gset (list N)),
    outcome (walk fuel self w p acc) = Done owners ->
    walk_stops p /\ (length (tail p) < fuel)%nat.
Proof.
  induction fuel as [|fuel IH]; intros p acc owners; [discriminate|].
  rewrite walk_step. cbn [outcome snd].
  destruct (bool_decide (p = Path_of (py "."))
            || bool_decide (p = Path_of (py "/"))) eqn:Hb.
  - intros _. apply at_boundary_iff in Hb. destruct Hb as [Ht Hs].
    split; [exact Hs|]. rewrite Ht. simpl. lia.
  - intros Hdone. apply IH in Hdone. destruct Hdone as [Hs Hl].
    split; [exact Hs|]. rewrite parent_tail_length in Hl. lia.
Qed.

Lemma resolve_done_inv (self : checker) (w : world) (fuel : nat)
    (file_path : list N) (owners : gset (list N)) :
  outcome (get_codeowners_for_file fuel self w file_path) = Done owners ->
  double_slash_rooted file_path = false /\ (iterations file_path <= fuel)%nat.
Proof.
  rewrite resolve_outcome.
  destruct (outcome (walk fuel self w (parent (Path_of file_path)) ∅))
    as [all_owners| |] eqn:Hw; [|discriminate..].
  intros _. apply walk_done_inv in Hw. destruct Hw as [Hs Hl].
  split; [|exact Hl].
  destruct (double_slash_rooted file_path) eqn:Hds; [|reflexivity].
  destruct (double_slash_never_stops _ Hds). exact Hs.
Qed.

(** ** One changed file *)

Lemma resolve_spec (self : checker) (w : world) (file_path : list N)
    (fuel : nat) :
  double_slash_rooted file_path = false ->
  (iterations file_path <= fuel)%nat ->
  get_codeowners_for_file fuel self w file_path
  = (resolve_events self w file_path, Done (resolved self w file_path)).
Proof.
  intros Hds Hfuel. apply get_codeowners_for_file_spec.
  - apply walk_stops_Path_of, Hds.
  - exact Hfuel.
Qed.

Lemma check_file_spec (self : checker) (w : world) (approvers : list (list N))
    (file_path : list N) (fuel : nat) (validation_failed : bool) :
  double_slash_rooted file_path = false ->
  (iterations file_path <= fuel)%nat ->
  check_file fuel self w approvers file_path validation_failed
  = (check_events self w approvers file_path,
     Done (validation_failed
           || bool_decide (spec_verdict approvers
                             (resolved self w file_path) = Fail))).
Proof.
  intros Hds Hfuel. unfold check_file.
  rewrite emit_then, resolve_spec, bind_done by assumption.
  unfold check_events, verdict_events, spec_verdict.
  destruct validation_failed,
    (bool_decide (resolved self w file_path = ∅)),
    (bool_decide (list_to_set approvers ∩ resolved self w file_path = ∅));
    reflexivity.
Qed.

(** ** Verdicts read off a trace *)

Lemma reported_verdict_skip (t1 t2 : list event) :
  Forall (fun e => verdict_event e = false) t1 ->
  reported_verdict (t1 ++ t2) = reported_verdict t2.
Proof.
  induction 1 as [|e t1 He _ IH]; [reflexivity|].
  rewrite <- IH. simpl. unfold reported_verdict.
  assert (H1 : forall t, bool_decide (PrintNoAuthorized ∈ e :: t)
                         = bool_decide (PrintNoAuthorized ∈ t)).
  { intros t. apply bool_decide_ext. rewrite elem_of_cons.
    split; [intros [<-|H]; [discriminate|exact H]|auto]. }
  assert (H2 : forall t, bool_decide (PrintNoCodeowners ∈ e :: t)
                         = bool_decide (PrintNoCodeowners ∈ t)).
  { intros t. apply bool_decide_ext. rewrite elem_of_cons.
    split; [intros [<-|H]; [discriminate|exact H]|auto]. }
  rewrite H1, H2. cbn [existsb].
  destruct e; try discriminate He; reflexivity.
Qed.

Lemma reported_verdict_events (approvers : list (list N))
    (owners : gset (list N)) :
  reported_verdict (verdict_events approvers owners)
  = Some (spec_verdict approvers owners).
Proof.
  unfold verdict_events. destruct (spec_verdict approvers owners);
    unfold reported_verdict.
  - rewrite bool_decide_eq_false_2
      by (rewrite list_elem_of_singleton; discriminate).
    cbn [existsb orb].
    rewrite bool_decide_eq_true_2 by apply list_elem_of_here. reflexivity.
  - rewrite bool_decide_eq_false_2
      by (rewrite !elem_of_cons, elem_of_nil; intros [E|[E|[]]];
          discriminate).
    reflexivity.
  - rewrite bool_decide_eq_true_2
      by (rewrite !elem_of_cons; auto).
    reflexivity.
Qed.

Lemma read_events_quiet (w : world) (file_path : list N) :
  Forall (fun e => verdict_event e = false) (read_events w file_path).
Proof.
  unfold read_events. constructor; [reflexivity|].
  destruct (open_read w file_path) as [content| |e].
  - apply List.Forall_forall. intros e He. apply in_map_iff in He.
    destruct He as (line & <- & _). reflexivity.
  - constructor.
  - constructor; [reflexivity|constructor].
Qed.

Lemma walk_events_quiet (self : checker) (w : world) (ds : list Path) :
  Forall (fun e => verdict_event e = false) (walk_events self w ds).
Proof.
  induction ds as [|d ds IH]; [constructor|].
  rewrite walk_events_cons. constructor; [reflexivity|].
  apply Forall_app. split; [apply read_events_quiet|exact IH].
Qed.

Create HintDb quiet discriminated.

#[local] Hint Resolve read_events_quiet walk_events_quiet : quiet.

Lemma resolve_events_quiet (self : checker) (w : world) (file_path : list N) :
  Forall (fun e => verdict_event e = false)
         (resolve_events self w file_path).
Proof.
  unfold resolve_events. constructor; [reflexivity|].
  apply Forall_app. split; auto with quiet.
Qed.

#[local] Hint Resolve resolve_events_quiet : quiet.

Lemma file_verdict_spec (self : checker) (w : world)
    (approvers : list (list N)) (file_path : list N) (fuel : nat) :
  double_slash_rooted file_path = false ->
  (iterations file_path <= fuel)%nat ->
  file_verdict fuel self w approvers file_path
  = Some (spec_verdict approvers (resolved self w file_path)).
Proof.
  intros Hds Hfuel. unfold file_verdict.
  rewrite check_file_spec by assumption. unfold check_events.
  change (trace (?t, _)) with t.
  rewrite app_comm_cons, reported_verdict_skip.
  - apply reported_verdict_events.
  - constructor; [reflexivity|auto with quiet].
Qed.

(** ** The loop over the changed files *)

Lemma walk_fuel_enough (files : list (list N)) (f : list N) (fuel : nat) :
  In f files -> (walk_fuel files <= fuel)%nat ->
  (iterations f <= fuel)%nat.
Proof.
  unfold walk_fuel. intros Hin Hfuel.
  apply list_max_le in Hfuel. rewrite List.Forall_forall in Hfuel.
  apply Hfuel, in_map, Hin.
Qed.

Lemma for_in_print_changed (files : list (list N)) :
  for_in files (fun file (_ : unit) => emit (PrintChangedFile file)) tt
  = (List.map PrintChangedFile files, Done tt).
Proof.
  induction files as [|f files IH]; [reflexivity|].
  rewrite for_in_cons. rewrite emit_bind, IH. reflexivity.
Qed.

Lemma for_in_check_file (self : checker) (w : world)
    (approvers : list (list N)) (fuel : nat) (files : list (list N)) :
  forall validation_failed : bool,
    Forall (fun f => double_slash_rooted f = false
                     /\ (iterations f <= fuel)%nat) files ->
    for_in files (check_file fuel self w approvers) validation_failed
    = (flat_map (check_events self w approvers) files,
       Done (validation_failed
             || existsb (fun f => bool_decide
                                    (spec_verdict approvers
                                       (resolved self w f) = Fail)) files)).
Proof.
  induction files as [|f files IH]; intros vf Hall.
  - rewrite for_in_nil. cbn [flat_map existsb].
    rewrite orb_false_r. reflexivity.
  - inversion Hall as [|? ? [Hds Hfuel] Hrest]; subst.
    rewrite for_in_cons. cbn [flat_map existsb].
    rewrite check_file_spec, bind_done, IH by assumption.
    cbn [trace outcome fst snd]. rewrite orb_assoc. reflexivity.
Qed.

Lemma check_file_done_inv (self : checker) (w : world) (fuel : nat)
    (approvers : list (list N)) (file_path : list N) (vf b : bool) :
  outcome (check_file fuel self w approvers file_path vf) = Done b ->
  double_slash_rooted file_path = false /\ (iterations file_path <= fuel)%nat.
Proof.
  unfold check_file. rewrite emit_then. cbn [outcome snd].
  rewrite outcome_bind.
  destruct (outcome (get_codeowners_for_file fuel self w file_path))
    as [owners| |] eqn:Hr; [|discriminate..].
  intros _. eapply resolve_done_inv. exact Hr.
Qed.

Lemma for_in_check_file_done_inv (self : checker) (w : world) (fuel : nat)
    (approvers : list (list N)) (files : list (list N)) :
  forall vf b : bool,
    outcome (for_in files (check_file fuel self w approvers) vf) = Done b ->
    Forall (fun f => double_slash_rooted f = false
                     /\ (iterations f <= fuel)%nat) files.
Proof.
  induction files as [|f files IH]; intros vf b; [constructor|].
  rewrite for_in_cons, outcome_bind.
  destruct (outcome (check_file fuel self w approvers f vf))
    as [vf'| |] eqn:Hc; [|discriminate..].
  intros Hrest. constructor.
  - eapply check_file_done_inv. exact Hc.
  - eapply IH. exact Hrest.
Qed.

(** ** One validation run *)

Lemma get_mr_details_ok (self : checker) (w : world) (details : mr_details) :
  merge_request w = Ok details ->
  get_mr_details self w
  = ([PrintUrl (details_url self); HttpGet (details_url self)], Done details).
Proof. intros H. unfold get_mr_details. rewrite H. reflexivity. Qed.

Lemma get_mr_approvals_done (self : checker) (w : world)
    (approvers : list (list N)) :
  outcome (get_mr_approvals self w) = Done approvers ->
  get_mr_approvals self w = ([HttpGet (approvals_url self)], Done approvers).
Proof.
  unfold get_mr_approvals. destruct (approved_by w); cbn.
  - intros [= <-]. reflexivity.
  - discriminate.
Qed.

Lemma get_changed_files_done (self : checker) (w : world)
    (changed_files : list (list N)) :
  outcome (get_changed_files self w) = Done changed_files ->
  get_changed_files self w
  = ([HttpGet (changes_url self)], Done changed_files).
Proof.
  unfold get_changed_files. destruct (changes w); cbn.
  - intros [= <-]. reflexivity.
  - discriminate.
Qed.

(** ** What a run can print *)

Section Prints.

Context (self : checker) (w : world) (fuel : nat).

Lemma read_events_file_events (file_path : list N) :
  Forall (fun e => file_event e = true) (read_events w file_path).
Proof.
  unfold read_events. constructor; [reflexivity|].
  destruct (open_read w file_path) as [content| |e].
  - apply List.Forall_forall. intros e He. apply in_map_iff in He.
    destruct He as (line & <- & _). reflexivity.
  - constructor.
  - constructor; [reflexivity|constructor].
Qed.

Lemma walk_file_events (n : nat) :
  forall (p : Path) (acc : gset (list N)),
    Forall (fun e => file_event e = true) (trace (walk n self w p acc)).
Proof.
  induction n as [|n IH]; intros p acc; [constructor|].
  rewrite walk_step. cbn [trace fst].
  constructor; [reflexivity|].
  apply Forall_app. split; [apply read_events_file_events|].
  destruct (bool_decide (p = Path_of (py "."))
            || bool_decide (p = Path_of (py "/"))).
  - constructor.
  - apply IH.
Qed.

Lemma resolve_file_events (file_path : list N) :
  Forall (fun e => file_event e = true)
         (trace (get_codeowners_for_file fuel self w file_path)).
Proof.
  unfold get_codeowners_for_file. rewrite emit_then. cbn [trace fst].
  constructor; [reflexivity|].
  rewrite trace_bind. apply Forall_app. split; [apply walk_file_events|].
  destruct (outcome (walk fuel self w (parent (Path_of file_path)) ∅));
    [|constructor..].
  rewrite read_codeowners_file_spec, bind_done. cbn [trace fst].
  rewrite app_nil_r. apply read_events_file_events.
Qed.

Lemma check_file_events (approvers : list (list N)) (file_path : list N)
    (vf : bool) :
  Forall (fun e => file_event e = true)
         (trace (check_file fuel self w approvers file_path vf)).
Proof.
  unfold check_file. rewrite emit_then. cbn [trace fst].
  constructor; [reflexivity|].
  rewrite trace_bind. apply Forall_app.
  split; [apply resolve_file_events|].
  destruct (outcome (get_codeowners_for_file fuel self w file_path))
    as [owners| |]; [|constructor..].
  destruct (bool_decide (owners = ∅)).
  - repeat constructor.
  - rewrite emit_then. cbn [trace fst]. constructor; [reflexivity|].
    destruct (bool_decide (list_to_set approvers ∩ owners = ∅));
      repeat constructor.
Qed.

Lemma for_in_check_file_events (approvers : list (list N))
    (files : list (list N)) :
  forall vf : bool,
    Forall (fun e => file_event e = true)
           (trace (for_in files (check_file fuel self w approvers) vf)).
Proof.
  induction files as [|f files IH]; intros vf; [constructor|].
  rewrite for_in_cons, trace_bind. apply Forall_app.
  split; [apply check_file_events|].
  destruct (outcome (check_file fuel self w approvers f vf));
    [apply IH|constructor..].
Qed.

End Prints.

Lemma validate_approvals_start (fuel : nat) (self : checker) (w : world)
    (details : mr_details) (approvers : list (list N)) :
  merge_request w = Ok details ->
  outcome (get_mr_approvals self w) = Done approvers ->
  validate_approvals fuel self w
  = (preamble self details
       ++ trace (if bool_decide (approvers = [])
                 then emit PrintNoApprovals;; mret false
                 else
                   emit (PrintApprovers approvers);;
                   changed_files ← get_changed_files self w;
                   if bool_decide (changed_files = []) then
                     emit PrintNoFilesChanged;; mret true
                   else
                     emit (PrintChangedFiles (length changed_files));;
                     for_in changed_files
                       (fun file (_ : unit) => emit (PrintChangedFile file))
                       tt;;
                     validation_failed ←
                       for_in changed_files
                         (check_file fuel self w approvers) false;
                     if (validation_failed : bool)
                     then emit PrintFailed;; mret false
                     else emit PrintPassed;; mret true),
     outcome (if bool_decide (approvers = [])
              then emit PrintNoApprovals;; mret false
              else
                emit (PrintApprovers approvers);;
                changed_files ← get_changed_files self w;
                if bool_decide (changed_files = []) then
                  emit PrintNoFilesChanged;; mret true
                else
                  emit (PrintChangedFiles (length changed_files));;
                  for_in changed_files
                    (fun file (_ : unit) => emit (PrintChangedFile file))
                    tt;;
                  validation_failed ←
                    for_in changed_files
                      (check_file fuel self w approvers) false;
                  if (validation_failed : bool)
                  then emit PrintFailed;; mret false
                  else emit PrintPassed;; mret true)).
Proof.
  intros Hd Ha. unfold validate_approvals.
  rewrite emit_then, (get_mr_details_ok _ _ _ Hd), bind_done, emit_then.
  rewrite (get_mr_approvals_done _ _ _ Ha), bind_done.
  reflexivity.
Qed.

(** The run on a non-empty list of changed files whose walks terminate. *)
Lemma validate_approvals_files (fuel : nat) (self : checker) (w : world)
    (details : mr_details) (approvers changed_files : list (list N)) :
  merge_request w = Ok details ->
  outcome (get_mr_approvals self w) = Done approvers ->
  outcome (get_changed_files self w) = Done changed_files ->
  approvers <> [] -> changed_files <> [] ->
  Forall (fun f => double_slash_rooted f = false) changed_files ->
  (walk_fuel changed_files <= fuel)%nat ->
  validate_approvals fuel self w
  = (run_events self w details approvers changed_files,
     Done (negb (any_file_fails self w approvers changed_files))).
Proof.
  intros Hd Ha Hc Hna Hnc Hall Hfuel.
  rewrite (validate_approvals_start _ _ _ _ _ Hd Ha).
  rewrite (bool_decide_eq_false_2 _ Hna).
  rewrite emit_then.
  rewrite (get_changed_files_done _ _ _ Hc), bind_done.
  rewrite (bool_decide_eq_false_2 _ Hnc).
  rewrite emit_then.
  rewrite for_in_print_changed, bind_done.
  rewrite for_in_check_file.
  - rewrite bind_done. unfold run_events, any_file_fails.
    cbn [trace outcome fst snd orb].
    destruct (existsb _ changed_files); reflexivity.
  - rewrite List.Forall_forall in *. intros f Hf. split; [auto|].
    eapply walk_fuel_enough; eassumption.
Qed.

Lemma flat_map_ext_in {A B} (f g : A -> list B) (l : list A) :
  (forall x, In x l -> f x = g x) -> flat_map f l = flat_map g l.
Proof.
  induction l as [|x l IH]; intros H; [reflexivity|].
  cbn [flat_map]. rewrite (H x) by (left; reflexivity).
  rewrite IH; [reflexivity|]. intros y Hy. apply H. right. exact Hy.
Qed.

Lemma validate_approvals_done_inv (fuel : nat) (self : checker) (w : world)
    (details : mr_details) (approvers changed_files : list (list N))
    (passed : bool) :
  merge_request w = Ok details ->
  outcome (get_mr_approvals self w) = Done approvers ->
  outcome (get_changed_files self w) = Done changed_files ->
  approvers <> [] -> changed_files <> [] ->
  outcome (validate_approvals fuel self w) = Done passed ->
  Forall (fun f => double_slash_rooted f = false
                   /\ (iterations f <= fuel)%nat) changed_files.
Proof.
  intros Hd Ha Hc Hna Hnc.
  rewrite (validate_approvals_start _ _ _ _ _ Hd Ha). cbn [outcome snd].
  rewrite (bool_decide_eq_false_2 _ Hna).
  rewrite emit_then. cbn [snd].
  rewrite (get_changed_files_done _ _ _ Hc), bind_done. cbn [outcome snd].
  rewrite (bool_decide_eq_false_2 _ Hnc).
  rewrite emit_then. cbn [snd].
  rewrite for_in_print_changed, bind_done. cbn [outcome snd].
  rewrite outcome_bind.
  destruct (outcome (for_in changed_files
                       (check_file fuel self w approvers) false))
    as [vf| |] eqn:Hloop; [|discriminate..].
  intros _. eapply for_in_check_file_done_inv. exact Hloop.
Qed.

Lemma getters_quiet (self : checker) (w : world) (e : event) :
  e ∈ trace (get_mr_details self w)
  \/ e ∈ trace (get_mr_approvals self w)
  \/ e ∈ trace (get_changed_files self w) ->
  e <> PrintNoApprovals.
Proof.
  unfold get_mr_details, get_mr_approvals, get_changed_files.
  rewrite !emit_then.
  destruct (merge_request w), (approved_by w), (changes w); cbn;
    rewrite ?elem_of_cons, ?elem_of_nil; intros H -> ;
    repeat (destruct H as [H|H]; try discriminate H); exact H.
Qed.

(** Splits a membership in a trace along its conses and appends, closing
    every case where the member would be a different event. *)
Ltac peel H :=
  repeat first
    [ apply elem_of_nil in H; destruct H
    | apply elem_of_cons in H; destruct H as [H|H]; [discriminate H|]
    | apply elem_of_app in H; destruct H as [H|H] ].

(** ** Adding a declaration to a manifest *)

(** The lines of a text followed by a newline and more text: the lines of
    both, with one empty line between them when the first text is empty or
    ends at a line boundary. *)
Lemma splitlines_from_newline (n : nat) :
  forall (a cur b : list N),
    (length a <= n)%nat ->
    exists gap : list (list N),
      (gap = [] \/ gap = [[]])
      /\ splitlines_from cur (a ++ 0xa :: b)
         = splitlines_from cur a ++ gap ++ splitlines_from [] b.
Proof.
  induction n as [|n IH]; intros a cur b Hlen.
  - destruct a; [|simpl in Hlen; lia]. cbn [app splitlines_from].
    change (islinebreak 10) with true. cbn iota.
    change (10 =? 13) with false. cbn [andb].
    assert (E : match b with
                | [] => splitlines_from [] b
                | _ :: _ => splitlines_from [] b
                end = splitlines_from [] b) by (destruct b; reflexivity).
    rewrite E. destruct cur as [|x cur].
    + exists [[]]. split; [auto|reflexivity].
    + exists []. split; [auto|reflexivity].
  - destruct a as [|c a].
    { apply (IH [] cur b). simpl. lia. }
    simpl in Hlen. cbn [app splitlines_from].
    destruct (islinebreak c) eqn:Hc.
    2:{ apply IH. lia. }
    destruct a as [|c' a].
    + cbn [app]. change (10 =? 10) with true. rewrite andb_true_r.
      destruct (c =? 13).
      * exists []. split; [auto|reflexivity].
      * destruct (IH [] [] b) as (gap & Hgap & E); [simpl; lia|].
        cbn [app] in E. rewrite E. exists gap. split; [exact Hgap|].
        reflexivity.
    + cbn [app]. destruct ((c =? 13) && (c' =? 10)).
      * destruct (IH a [] b) as (gap & Hgap & E); [simpl in *; lia|].
        rewrite E. exists gap. split; [exact Hgap|reflexivity].
      * destruct (IH (c' :: a) [] b) as (gap & Hgap & E);
          [simpl in *; lia|].
        cbn [app] in E. rewrite E. exists gap.
        split; [exact Hgap|reflexivity].
Qed.

Lemma spec_tokens_newline (a b : list N) :
  spec_tokens (a ++ 0xa :: b) = spec_tokens a ++ spec_tokens b.
Proof.
  unfold spec_tokens, splitlines.
  destruct (splitlines_from_newline (length a) a [] b (Nat.le_refl _))
    as (gap & Hgap & ->).
  rewrite !List.map_app, !List.filter_app, !List.map_app, !concat_app.
  destruct Hgap as [-> | ->]; reflexivity.
Qed.

Lemma spec_parse_newline (a b : list N) :
  spec_parse (a ++ 0xa :: b) = spec_parse a ∪ spec_parse b.
Proof.
  unfold spec_parse. rewrite spec_tokens_newline, omap_app.
  apply list_to_set_app_L.
Qed.

Lemma declared_add_declaration (w : world) (loc decl p : list N) :
  declared w p ⊆ declared (add_declaration w loc decl) p.
Proof.
  unfold declared, add_declaration. cbn [update_file open_read].
  case_bool_decide as Hp; [subst p|reflexivity].
  destruct (open_read w loc) as [content| |e].
  - change (content ++ [10] ++ decl) with (content ++ 10 :: decl).
    rewrite spec_parse_newline. set_solver.
  - set_solver.
  - reflexivity.
Qed.

Lemma union_list_mono (f g : list N -> gset (list N)) (locs : list (list N)) :
  (forall p, f p ⊆ g p) ->
  ⋃ (List.map f locs) ⊆ ⋃ (List.map g locs).
Proof.
  intros H. induction locs as [|p locs IH]; simpl; [set_solver|].
  specialize (H p). set_solver.
Qed.

Lemma union_list_member (f : list N -> gset (list N)) (locs : list (list N))
    (p : list N) :
  In p locs -> f p ⊆ ⋃ (List.map f locs).
Proof.
  induction locs as [|q locs IH]; simpl; [intros []|].
  intros [->|Hin]; [set_solver|]. specialize (IH Hin). set_solver.
Qed.

(** ** Splitting and joining at slashes *)

Lemma split_on_nonempty (sep : N) (s : list N) : split_on sep s <> [].
Proof.
  destruct s as [|c s]; simpl; [discriminate|].
  destruct (c =? sep); [discriminate|].
  destruct (split_on sep s); discriminate.
Qed.

Lemma split_on_app (sep : N) (a b : list N) :
  split_on sep (a ++ sep :: b) = split_on sep a ++ split_on sep b.
Proof.
  induction a as [|c a IH]; simpl.
  - rewrite N.eqb_refl. reflexivity.
  - destruct (c =? sep); [rewrite IH; reflexivity|].
    rewrite IH. pose proof (split_on_nonempty sep a) as Hne.
    destruct (split_on sep a); [contradiction|reflexivity].
Qed.

Lemma split_on_free (sep : N) (x : list N) :
  ~ In sep x -> split_on sep x = [x].
Proof.
  induction x as [|c x IH]; intros Hfree; simpl; [reflexivity|].
  destruct (N.eqb_spec c sep) as [->|Hc]; [destruct Hfree; left; reflexivity|].
  rewrite IH; [reflexivity|]. intros H. apply Hfree. right. exact H.
Qed.

Lemma split_on_fields_free (sep : N) (s x : list N) :
  In x (split_on sep s) -> ~ In sep x.
Proof.
  revert x. induction s as [|c s IH]; intros x; simpl.
  - intros [<-|[]] [].
  - destruct (N.eqb_spec c sep) as [->|Hc].
    + intros [<-|Hx]; [intros []|apply IH, Hx].
    + pose proof (split_on_nonempty sep s) as Hne.
      destruct (split_on sep s) as [|w ws]; [contradiction|].
      intros [<-|Hx].
      * intros [E|Hw]; [congruence|]. apply (IH w); [left; reflexivity|].
        exact Hw.
      * apply IH. right. exact Hx.
Qed.

Lemma split_on_join (cs : list (list N)) :
  cs <> [] -> Forall (fun c => ~ In 47 c) cs ->
  split_on 47 (str_join (py "/") cs) = cs.
Proof.
  intros Hne Hall. induction Hall as [|c cs Hc Hall IH]; [contradiction|].
  destruct cs as [|c2 cs].
  - simpl. apply split_on_free, Hc.
  - change (str_join (py "/") (c :: c2 :: cs))
      with (c ++ 47 :: str_join (py "/") (c2 :: cs)).
    rewrite split_on_app, IH by discriminate.
    rewrite split_on_free by exact Hc. reflexivity.
Qed.

(** ** Normalising joined paths *)

Lemma norm_step_plain (absolute : bool) (stack : list (list N)) (c : list N) :
  plain c -> norm_step absolute stack c = c :: stack.
Proof.
  intros (H1 & H2 & H3 & _). unfold norm_step.
  rewrite !bool_decide_eq_false_2 by assumption. reflexivity.
Qed.

Lemma fold_norm_plain (absolute : bool) (cs stack : list (list N)) :
  Forall plain cs ->
  fold_left (norm_step absolute) cs stack = rev cs ++ stack.
Proof.
  intros Hall. revert stack.
  induction Hall as [|c cs Hc _ IH]; intros stack; [reflexivity|].
  cbn [fold_left]. rewrite norm_step_plain by exact Hc.
  rewrite IH. cbn [rev]. rewrite <- app_assoc. reflexivity.
Qed.

Lemma endswith_slash (r : list N) :
  endswith r (py "/") = true -> exists r', r = r' ++ [47].
Proof.
  unfold endswith. change (rev (py "/")) with [47].
  destruct (rev r) as [|c t] eqn:E; [discriminate|].
  rewrite startswith_cons, startswith_nil, andb_true_r.
  intros Hc. apply N.eqb_eq in Hc. subst c.
  exists (rev t). rewrite <- (rev_involutive r), E. reflexivity.
Qed.

Lemma is_absolute_app (r x : list N) :
  r <> [] -> is_absolute (r ++ x) = is_absolute r.
Proof. destruct r; [contradiction|reflexivity]. Qed.

(** Joining a relative string that spells [cs] onto a directory appends
    [cs] to what the directory normalises to. *)
Lemma join_step_spells (r b : list N) (cs : list (list N)) :
  spells b cs ->
  is_absolute (join_step r b) = is_absolute r
  /\ normal_parts (join_step r b) = normal_parts r ++ cs.
Proof.
  intros [Hrel Hfold]. unfold join_step. rewrite Hrel.
  case_bool_decide as Hr.
  - subst r. cbn [orb app]. split; [exact Hrel|].
    unfold normal_parts. rewrite Hfold.
    rewrite app_nil_r, rev_involutive. reflexivity.
  - cbn [orb]. destruct (endswith r (py "/")) eqn:He.
    + destruct (endswith_slash r He) as [r' ->].
      split; [apply is_absolute_app; exact Hr|].
      unfold normal_parts. rewrite is_absolute_app by exact Hr.
      rewrite <- app_assoc. cbn [app].
      rewrite !split_on_app, !fold_left_app, Hfold.
      change (split_on 47 []) with [[] : list N]. cbn [fold_left].
      change (norm_step ?a ?st []) with st.
      rewrite rev_app_distr, rev_involutive. reflexivity.
    + split; [apply is_absolute_app; exact Hr|].
      unfold normal_parts. rewrite is_absolute_app by exact Hr.
      change (py "/" ++ b) with (47 :: b).
      rewrite split_on_app, fold_left_app, Hfold.
      rewrite rev_app_distr, rev_involutive. reflexivity.
Qed.

Lemma spells_manifest_name : spells CODEOWNERS_md [CODEOWNERS_md].
Proof. split; [reflexivity|]. intros absolute stack. reflexivity. Qed.

Lemma str_join_head (c : list N) (cs : list (list N)) :
  exists rest, str_join (py "/") (c :: cs) = c ++ rest.
Proof.
  destruct cs as [|c2 cs].
  - exists []. simpl. rewrite app_nil_r. reflexivity.
  - eexists. reflexivity.
Qed.

Lemma spells_Path_str (d : Path) :
  root d = [] -> Forall plain (tail d) -> spells (Path_str d) (tail d).
Proof.
  intros Hroot Hall. destruct (tail d) as [|c cs] eqn:Ht.
  - unfold Path_str. rewrite Hroot, Ht.
    split; [reflexivity|]. intros absolute stack. reflexivity.
  - destruct (str_join_head c cs) as [rest Hj].
    inversion Hall as [|? ? (Hc1 & _ & _ & Hc4) _]; subst.
    destruct c as [|x c]; [contradiction|].
    assert (E : Path_str d = str_join (py "/") ((x :: c) :: cs)).
    { unfold Path_str. rewrite Hroot, Ht, Hj. reflexivity. }
    rewrite E. split.
    + rewrite Hj. change (py "/") with [47]. cbn [app].
      rewrite startswith_cons, startswith_nil, andb_true_r.
      apply N.eqb_neq. intros ->. apply Hc4. left. reflexivity.
    + intros absolute stack. rewrite split_on_join; [|discriminate|].
      * apply fold_norm_plain. exact Hall.
      * eapply List.Forall_impl; [|exact Hall]. intros a (_ & _ & _ & Ha).
        exact Ha.
Qed.

Lemma below_root_intro (r loc : list N) (cs : list (list N)) :
  is_absolute loc = is_absolute r ->
  normal_parts loc = normal_parts r ++ cs ->
  ~ In (py "..") cs ->
  below_root r loc = true.
Proof.
  intros Ha Hn Hcs. unfold below_root. rewrite Hn.
  rewrite take_app_length, drop_app_length.
  rewrite !bool_decide_eq_true_2 by (assumption || reflexivity).
  rewrite bool_decide_eq_false_2; [reflexivity|].
  rewrite list_elem_of_In. exact Hcs.
Qed.

(** ** Where a resolution reads *)

Lemma in_removelast {A} (x : A) (l : list A) :
  In x (removelast l) -> In x l.
Proof.
  induction l as [|a l IH]; [intros []|].
  destruct l as [|b l]; [intros []|].
  change (removelast (a :: b :: l)) with (a :: removelast (b :: l)).
  intros [->|H]; [left; reflexivity|right; apply IH, H].
Qed.

Lemma ancestors_upto_in (n : nat) :
  forall (p d : Path),
    In d (ancestors_upto n p) ->
    root d = root p /\ forall x, In x (tail d) -> In x (tail p).
Proof.
  induction n as [|n IH]; intros p d; cbn [ancestors_upto].
  - intros [<-|[]]. auto.
  - intros [<-|Hd]; [auto|].
    destruct (IH _ _ Hd) as [Hr Ht]. split; [exact Hr|].
    intros x Hx. apply in_removelast. exact (Ht x Hx).
Qed.

Lemma Path_of_tail_in (file_path x : list N) :
  In x (tail (Path_of file_path)) ->
  x <> [] /\ x <> py "." /\ ~ In 47 x.
Proof.
  unfold Path_of. destruct (splitroot file_path) as [rt rel].
  cbn [tail]. intros Hx. apply filter_In in Hx. destruct Hx as [Hx Hk].
  unfold kept_part in Hk. apply andb_true_iff in Hk. destruct Hk as [H1 H2].
  apply negb_true_iff, bool_decide_eq_false in H1, H2.
  repeat split; [exact H1|exact H2|].
  eapply split_on_fields_free. exact Hx.
Qed.

Lemma relative_not_double_slash (file_path : list N) :
  root (Path_of file_path) = [] -> double_slash_rooted file_path = false.
Proof.
  rewrite Path_of_root, splitroot_root.
  destruct (startswith file_path (py "/")) eqn:Hs.
  - destruct (double_slash_rooted file_path); discriminate.
  - intros _. unfold double_slash_rooted.
    destruct file_path as [|c s]; [reflexivity|].
    change (py "/") with [47] in Hs. change (py "//") with [47; 47].
    rewrite startswith_cons in *. rewrite startswith_nil in Hs.
    rewrite andb_true_r in Hs. rewrite Hs. reflexivity.
Qed.

Lemma manifest_path_below (self : checker) (d : Path) :
  root d = [] -> Forall plain (tail d) ->
  below_root (ci_project_dir self) (manifest_path self d) = true.
Proof.
  intros Hroot Hall. unfold manifest_path, os_path_join. cbn [fold_left].
  destruct (join_step_spells (ci_project_dir self) (Path_str d) (tail d)
              (spells_Path_str d Hroot Hall)) as [Ha Hn].
  destruct (join_step_spells (join_step (ci_project_dir self) (Path_str d))
              CODEOWNERS_md [CODEOWNERS_md] spells_manifest_name)
    as [Ha2 Hn2].
  apply (below_root_intro _ _ (tail d ++ [CODEOWNERS_md])).
  - rewrite Ha2. exact Ha.
  - rewrite Hn2, Hn, <- app_assoc. reflexivity.
  - intros Hin. apply in_app_or in Hin. destruct Hin as [Hin|[E|[]]].
    + rewrite List.Forall_forall in Hall.
      destruct (Hall _ Hin) as (_ & _ & H3 & _). apply H3. reflexivity.
    + discriminate E.
Qed.

Lemma root_manifest_below (self : checker) :
  below_root (ci_project_dir self) (root_manifest self) = true.
Proof.
  unfold root_manifest, os_path_join. cbn [fold_left].
  destruct (join_step_spells (ci_project_dir self)
              CODEOWNERS_md [CODEOWNERS_md] spells_manifest_name)
    as [Ha Hn].
  apply (below_root_intro _ _ [CODEOWNERS_md]); [exact Ha|exact Hn|].
  intros [E|[]]. discriminate E.
Qed.

(** ** A changed file that is never resolved *)

Lemma walk_quiet (self : checker) (w : world) (n : nat) :
  forall (p : Path) (acc : gset (list N)),
    Forall (fun e => verdict_event e = false) (trace (walk n self w p acc)).
Proof.
  induction n as [|n IH]; intros p acc; [constructor|].
  rewrite walk_step. cbn [trace fst].
  constructor; [reflexivity|].
  apply Forall_app. split; [apply read_events_quiet|].
  destruct (bool_decide (p = Path_of (py "."))
            || bool_decide (p = Path_of (py "/"))).
  - constructor.
  - apply IH.
Qed.

Lemma reported_verdict_quiet (t : list event) :
  Forall (fun e => verdict_event e = false) t -> reported_verdict t = None.
Proof.
  intros H. rewrite <- (app_nil_r t), (reported_verdict_skip _ _ H).
  reflexivity.
Qed.

(** The loop body on a path that starts with exactly two slashes: it is
    still in the walk, and has reported no verdict. *)
Lemma check_file_diverges (self : checker) (w : world) (fuel : nat)
    (approvers : list (list N)) (file_path : list N) (vf : bool) :
  double_slash_rooted file_path = true ->
  outcome (check_file fuel self w approvers file_path vf) = OutOfFuel
  /\ reported_verdict (trace (check_file fuel self w approvers file_path vf))
     = None.
Proof.
  intros Hds.
  pose proof (resolve_diverges self w fuel file_path Hds) as Hr.
  unfold check_file. rewrite emit_then. cbn [outcome trace fst snd].
  rewrite outcome_bind, trace_bind, Hr, app_nil_r. split; [reflexivity|].
  apply reported_verdict_quiet. constructor; [reflexivity|].
  unfold get_codeowners_for_file. rewrite emit_then. cbn [trace fst].
  constructor; [reflexivity|].
  rewrite trace_bind. apply Forall_app. split; [apply walk_quiet|].
  rewrite resolve_outcome in Hr.
  destruct (outcome (walk fuel self w (parent (Path_of file_path)) ∅));
    [discriminate Hr|constructor..].
Qed.

(** * The properties of the specification *)

(** C1: on the merge request approved by [alice] whose one changed file
    is [//a/b.txt], [validate_approvals] gives no overall result.  The
    approvers and the changed files are not empty and no changed file got
    the fail verdict, so the rule asks for a pass; but whatever the fuel,
    the project directory and the manifests, the run is still in the walk
    of that file: it returns neither [True] nor [False], it prints neither
    of the two final messages, and the file got no verdict at all. *)
Theorem C1_double_slash_file_blocks_the_result
    (fuel : nat) (self : checker) (files : list (list N * read_result)) :
  outcome (get_mr_approvals self (scenario_double_slash files))
  = Done [py "alice"]
  /\ outcome (get_changed_files self (scenario_double_slash files))
     = Done [py "//a/b.txt"]
  /\ (forall f, In f [py "//a/b.txt"] ->
                file_verdict fuel self (scenario_double_slash files)
                  [py "alice"] f <> Some Fail)
  /\ file_verdict fuel self (scenario_double_slash files)
       [py "alice"] (py "//a/b.txt") = None
  /\ outcome (validate_approvals fuel self (scenario_double_slash files))
     = OutOfFuel
  /\ outcome (validate_approvals fuel self (scenario_double_slash files))
     <> Done true
  /\ ~ In PrintPassed
         (trace (validate_approvals fuel self (scenario_double_slash files)))
  /\ ~ In PrintFailed
         (trace (validate_approvals fuel self (scenario_double_slash files))).
Proof.
  set (w := scenario_double_slash files).
  assert (Hd : merge_request w = Ok scenario_details) by reflexivity.
  assert (Ha : outcome (get_mr_approvals self w) = Done [py "alice"])
    by reflexivity.
  assert (Hc : outcome (get_changed_files self w) = Done [py "//a/b.txt"])
    by reflexivity.
  assert (Hds : double_slash_rooted (py "//a/b.txt") = true) by reflexivity.
  destruct (check_file_diverges self w fuel [py "alice"] (py "//a/b.txt")
              false Hds) as [Ho Hv].
  assert (Hrun : validate_approvals fuel self w
                 = (preamble self scenario_details
                      ++ [PrintApprovers [py "alice"];
                          HttpGet (changes_url self);
                          PrintChangedFiles 1;
                          PrintChangedFile (py "//a/b.txt")]
                      ++ trace (check_file fuel self w [py "alice"]
                                  (py "//a/b.txt") false),
                    OutOfFuel)).
  { rewrite (validate_approvals_start _ _ _ _ _ Hd Ha).
    rewrite bool_decide_eq_false_2 by discriminate.
    rewrite emit_then, (get_changed_files_done _ _ _ Hc), bind_done.
    rewrite bool_decide_eq_false_2 by discriminate.
    rewrite emit_then, for_in_print_changed, bind_done.
    rewrite for_in_cons.
    rewrite (run_eta (check_file fuel self w [py "alice"]
                        (py "//a/b.txt") false)), Ho.
    reflexivity. }
  assert (Hquiet : forall e,
             In e (trace (validate_approvals fuel self w)) ->
             e <> PrintPassed /\ e <> PrintFailed).
  { intros e He. rewrite Hrun in He. cbn [trace fst] in He.
    apply in_app_or in He. destruct He as [He|He].
    - unfold preamble in He. cbn in He.
      repeat (destruct He as [<-|He]; [split; discriminate|]).
      destruct He.
    - apply in_app_or in He. destruct He as [He|He].
      + cbn in He.
        repeat (destruct He as [<-|He]; [split; discriminate|]).
        destruct He.
      + pose proof (check_file_events self w fuel [py "alice"]
                      (py "//a/b.txt") false) as Hfe.
        rewrite List.Forall_forall in Hfe. specialize (Hfe e He).
        split; intros ->; discriminate Hfe. }
  split; [exact Ha|]. split; [exact Hc|].
  split.
  { intros f [<-|[]]. unfold file_verdict. rewrite Hv. discriminate. }
  split; [exact Hv|].
  split; [rewrite Hrun; reflexivity|].
  split; [rewrite Hrun; discriminate|].
  split; intros Hin; apply Hquiet in Hin; destruct Hin; congruence.
Qed.

(** C2: the owners read from the manifest of the repository root belong to
    every owner set the resolver returns, at any depth; and the resolver
    does return one for every path on which its walk terminates. *)
Theorem C2_root_owners_in_every_resolution
    (self : checker) (w : world) (file_path : list N)
    (root_owners : gset (list N)) :
  outcome (read_codeowners_file w
             (os_path_join (ci_project_dir self) [CODEOWNERS_md]))
  = Done root_owners ->
  (forall (fuel : nat) (owners : gset (list N)),
      outcome (get_codeowners_for_file fuel self w file_path) = Done owners ->
      root_owners ⊆ owners)
  /\ (double_slash_rooted file_path = false ->
      forall fuel : nat,
        (iterations file_path <= fuel)%nat ->
        exists owners : gset (list N),
          outcome (get_codeowners_for_file fuel self w file_path)
          = Done owners
          /\ root_owners ⊆ owners).
Proof.
  fold (root_manifest self). rewrite read_codeowners_file_spec.
  intros [= <-].
  assert (Hpart : forall (fuel : nat) (owners : gset (list N)),
             outcome (get_codeowners_for_file fuel self w file_path)
             = Done owners ->
             declared w (root_manifest self) ⊆ owners).
  { intros fuel owners. rewrite resolve_outcome.
    destruct (outcome (walk fuel self w (parent (Path_of file_path)) ∅));
      [|discriminate..].
    intros [= <-]. set_solver. }
  split; [exact Hpart|].
  intros Hds fuel Hfuel. exists (resolved self w file_path).
  assert (E : outcome (get_codeowners_for_file fuel self w file_path)
              = Done (resolved self w file_path))
    by (rewrite resolve_spec by assumption; reflexivity).
  split; [exact E|]. exact (Hpart fuel _ E).
Qed.

(** C3: every owner set the resolver returns is the plain union of what
    the manifests of the ancestor chain and of the root declare.  Every
    owner a visited manifest declares is in it, whatever deeper or
    shallower manifests declare, and the manifest of every ancestor
    directory is visited; adding a declaration to any manifest gives a
    resolved set that contains the old one.  The resolver does return a
    set for every path on which its walk terminates. *)
Theorem C3_resolution_is_monotone_union
    (self : checker) (w : world) (file_path : list N) (fuel : nat) :
  (double_slash_rooted file_path = false ->
   (iterations file_path <= fuel)%nat ->
   exists owners : gset (list N),
     outcome (get_codeowners_for_file fuel self w file_path) = Done owners)
  /\ forall owners : gset (list N),
       outcome (get_codeowners_for_file fuel self w file_path) = Done owners ->
       owners = ⋃ (List.map (declared w) (visited self file_path))
       /\ (forall (loc : list N) (declared_there : gset (list N)),
              In loc (visited self file_path) ->
              outcome (read_codeowners_file w loc) = Done declared_there ->
              declared_there ⊆ owners)
       /\ (forall (d : Path),
              In d (ancestors (parent (Path_of file_path))) ->
              In (manifest_path self d) (visited self file_path))
       /\ (forall (loc decl : list N),
              exists owners' : gset (list N),
                outcome (get_codeowners_for_file fuel self
                           (add_declaration w loc decl) file_path)
                = Done owners'
                /\ owners ⊆ owners').
Proof.
  split.
  { intros Hds Hfuel. exists (resolved self w file_path).
    rewrite resolve_spec by assumption. reflexivity. }
  intros owners Hdone.
  destruct (resolve_done_inv _ _ _ _ _ Hdone) as [Hds Hfuel].
  rewrite resolve_spec in Hdone by assumption. injection Hdone as <-.
  split; [reflexivity|]. split; [|split].
  - intros loc declared_there Hin.
    rewrite read_codeowners_file_spec. intros [= <-].
    apply union_list_member. exact Hin.
  - intros d Hd. unfold visited. apply in_or_app. left.
    apply in_map. exact Hd.
  - intros loc decl.
    exists (resolved self (add_declaration w loc decl) file_path).
    split; [rewrite resolve_spec by assumption; reflexivity|].
    apply union_list_mono. intros p. apply declared_add_declaration.
Qed.

(** C4: the owners [read_codeowners_file] extracts from a manifest text are
    exactly the set the specification describes: blank and comment lines
    are skipped after trimming; of the whitespace-separated tokens of the
    other lines, a token starting with [@] is added without the marker, a
    token starting with [/] or [*] is dropped, any other token is added as
    it is.  The line [/docs/* @dave] gives the owner set [{dave}]. *)
Theorem C4_parse_refines_spec :
  (forall content : list N,
      outcome (extract_owners content) = Done (spec_parse content))
  /\ (forall (w : world) (file_path content : list N),
         open_read w file_path = Content content ->
         outcome (read_codeowners_file w file_path)
         = Done (spec_parse content))
  /\ (forall (content owner : list N),
         owner ∈ spec_parse content <->
         exists line token,
           In line (splitlines content)
           /\ strip line <> [] /\ startswith (strip line) (py "#") = false
           /\ In token (split (strip line))
           /\ ((startswith token (py "@") = true /\ owner = List.tl token)
               \/ (startswith token (py "@") = false
                   /\ startswith token (py "/") = false
                   /\ startswith token (py "*") = false
                   /\ owner = token)))
  /\ outcome (extract_owners (py "/docs/* @dave")) = Done {[ py "dave" ]}.
Proof.
  split; [|split; [|split]].
  - intros content. rewrite extract_owners_spec. reflexivity.
  - intros w file_path content Hread. unfold read_codeowners_file.
    rewrite emit_then, Hread, extract_owners_spec. reflexivity.
  - intros content owner. unfold spec_parse, spec_tokens.
    rewrite elem_of_list_to_set, list_elem_of_omap. split.
    + intros (token & Htok & Hown).
      apply list_elem_of_In, in_concat in Htok.
      destruct Htok as (words & Hwords & Htok).
      apply in_map_iff in Hwords. destruct Hwords as (trimmed & <- & Htr).
      apply filter_In in Htr. destruct Htr as [Htr Hdecl].
      apply in_map_iff in Htr. destruct Htr as (line & <- & Hline).
      unfold spec_declaration_line in Hdecl.
      apply andb_true_iff in Hdecl. destruct Hdecl as [Hne Hhash].
      apply negb_true_iff in Hne, Hhash.
      apply bool_decide_eq_false in Hne.
      exists line, token. repeat split; try assumption.
      unfold spec_token_owner in Hown.
      destruct (startswith token (py "@")).
      * left. split; [reflexivity|congruence].
      * right. destruct (startswith token (py "/")); [discriminate|].
        destruct (startswith token (py "*")); [discriminate|].
        repeat split. simpl in Hown. congruence.
    + intros (line & token & Hline & Hne & Hhash & Htok & Hown).
      exists token. split.
      * apply list_elem_of_In, in_concat. exists (split (strip line)).
        split; [|exact Htok].
        apply in_map_iff. exists (strip line). split; [reflexivity|].
        apply filter_In. split; [apply in_map; exact Hline|].
        unfold spec_declaration_line. rewrite Hhash.
        rewrite bool_decide_eq_false_2 by exact Hne. reflexivity.
      * unfold spec_token_owner.
        destruct Hown as [[-> ->]|(-> & -> & -> & ->)]; reflexivity.
  - rewrite extract_owners_spec. vm_compute. reflexivity.
Qed.

(** C5: with an empty list of approvers the run ends at once: it prints
    the "no approvals" message, returns [False], requests no list of changed
    files, opens no manifest and reports no per-file verdict.  The message
    is printed in no other run. *)
Theorem C5_no_approvals_fast_fail
    (self : checker) (w : world) (details : mr_details) (fuel : nat) :
  merge_request w = Ok details ->
  outcome (get_mr_approvals self w) = Done [] ->
  validate_approvals fuel self w
  = (preamble self details ++ [PrintNoApprovals], Done false)
  /\ opened (trace (validate_approvals fuel self w)) = []
  /\ Forall (fun e => verdict_event e = false /\ file_event e = false)
            (trace (validate_approvals fuel self w))
  /\ forall (w' : world) (fuel' : nat),
       PrintNoApprovals ∈ trace (validate_approvals fuel' self w') ->
       outcome (get_mr_approvals self w') = Done [].
Proof.
  intros Hd Ha.
  assert (E : validate_approvals fuel self w
              = (preamble self details ++ [PrintNoApprovals], Done false)).
  { rewrite (validate_approvals_start _ _ _ _ _ Hd Ha). reflexivity. }
  rewrite E. repeat split.
  - cbn. repeat constructor.
  - clear. intros w' fuel' Hin. unfold validate_approvals in Hin.
    rewrite emit_then, trace_bind in Hin. cbn [trace fst] in Hin.
    peel Hin. { destruct (getters_quiet self w' _ (or_introl Hin) eq_refl). }
    destruct (outcome (get_mr_details self w')) as [details'| |];
      [|peel Hin..].
    rewrite emit_then, trace_bind in Hin. cbn [trace fst] in Hin.
    peel Hin.
    { destruct (getters_quiet self w' _ (or_intror (or_introl Hin))
                 eq_refl). }
    destruct (outcome (get_mr_approvals self w')) as [approvers| |];
      [|peel Hin..].
    case_bool_decide as Happ; [congruence|]. exfalso.
    rewrite emit_then, trace_bind in Hin. cbn [trace fst] in Hin.
    peel Hin.
    { destruct (getters_quiet self w' _ (or_intror (or_intror Hin))
                 eq_refl). }
    destruct (outcome (get_changed_files self w')) as [changed_files| |];
      [|peel Hin..].
    case_bool_decide as Hch; [cbn in Hin; peel Hin|].
    rewrite emit_then, for_in_print_changed, bind_done in Hin.
    cbn [trace fst] in Hin. rewrite trace_bind in Hin. peel Hin.
    + apply list_elem_of_In, in_map_iff in Hin.
      destruct Hin as (? & ? & _). discriminate.
    + pose proof (for_in_check_file_events self w' fuel'
                    approvers changed_files false) as Hall.
      rewrite List.Forall_forall in Hall.
      apply list_elem_of_In in Hin. apply Hall in Hin. discriminate.
    + destruct (outcome (for_in changed_files _ false)) as [[|]| |];
        cbn in Hin; peel Hin.
Qed.

(** C6: with a non-empty list of approvers and an empty list of changed
    files the run passes at once: it returns [True] after the "no files
    changed" message and opens no manifest. *)
Theorem C6_no_changed_files_pass
    (self : checker) (w : world) (details : mr_details)
    (approvers : list (list N)) (fuel : nat) :
  merge_request w = Ok details ->
  outcome (get_mr_approvals self w) = Done approvers ->
  approvers <> [] ->
  outcome (get_changed_files self w) = Done [] ->
  validate_approvals fuel self w
  = (preamble self details
       ++ [PrintApprovers approvers; HttpGet (changes_url self);
           PrintNoFilesChanged],
     Done true)
  /\ opened (trace (validate_approvals fuel self w)) = []
  /\ Forall (fun e => file_event e = false)
            (trace (validate_approvals fuel self w)).
Proof.
  intros Hd Ha Hna Hc.
  assert (E : validate_approvals fuel self w
              = (preamble self details
                   ++ [PrintApprovers approvers; HttpGet (changes_url self);
                       PrintNoFilesChanged],
                 Done true)).
  { rewrite (validate_approvals_start _ _ _ _ _ Hd Ha).
    rewrite (bool_decide_eq_false_2 _ Hna).
    rewrite emit_then, (get_changed_files_done _ _ _ Hc), bind_done.
    reflexivity. }
  rewrite E. repeat split. cbn. repeat constructor.
Qed.

(** C7, as stated, fails: nothing is cached.  The second resolution of
    [src/a.txt] opens the three manifests the first one opened, and one
    run over two files of [src] opens the manifest of [src] twice. *)
Lemma C7_manifests_are_read_again :
  opened (trace (get_codeowners_for_file 3 here scenario_siblings
                   (py "src/a.txt")))
  = [py "./src/CODEOWNERS.md"; py "././CODEOWNERS.md"; py "./CODEOWNERS.md"]
  /\ opened (trace (resolve_twice 3 here scenario_siblings (py "src/a.txt")))
     = [py "./src/CODEOWNERS.md"; py "././CODEOWNERS.md";
        py "./CODEOWNERS.md";
        py "./src/CODEOWNERS.md"; py "././CODEOWNERS.md";
        py "./CODEOWNERS.md"]
  /\ List.filter (fun loc => bool_decide (loc = py "./src/CODEOWNERS.md"))
       (opened (trace (validate_approvals 3 here scenario_siblings)))
     = [py "./src/CODEOWNERS.md"; py "./src/CODEOWNERS.md"]
  /\ ~ (forall (fuel : nat) (self : checker) (w : world) (file_path : list N),
           opened (trace (resolve_twice fuel self w file_path))
           = opened (trace (get_codeowners_for_file fuel self w file_path))).
Proof.
  split; [vm_compute; reflexivity|].
  split; [vm_compute; reflexivity|].
  split; [vm_compute; reflexivity|].
  intros H.
  specialize (H 3%nat here scenario_siblings (py "src/a.txt")).
  apply (f_equal (@length (list N))) in H. vm_compute in H. discriminate H.
Qed.

(** C7, as amended: the checker keeps no cache.  Two resolutions of one
    file in one run return the same owner set, and the second one opens
    again every manifest the first one opened: the manifests of the
    ancestor chain, then the root manifest. *)
Theorem C7_second_resolution_reads_again
    (self : checker) (w : world) (file_path : list N) (fuel : nat) :
  double_slash_rooted file_path = false ->
  (iterations file_path <= fuel)%nat ->
  outcome (resolve_twice fuel self w file_path)
  = Done (resolved self w file_path, resolved self w file_path)
  /\ opened (trace (get_codeowners_for_file fuel self w file_path))
     = visited self file_path
  /\ opened (trace (resolve_twice fuel self w file_path))
     = visited self file_path ++ visited self file_path
  /\ visited self file_path <> [].
Proof.
  intros Hds Hfuel. unfold resolve_twice.
  rewrite resolve_spec, !bind_done by assumption.
  cbn [trace outcome fst snd mret run_ret].
  assert (Ho : opened (resolve_events self w file_path)
               = visited self file_path).
  { unfold resolve_events, visited.
    change (opened (PrintCurrentPath ?p :: ?t)) with (opened t).
    rewrite opened_app, opened_walk_events, opened_read_events.
    reflexivity. }
  rewrite app_nil_r, opened_app, Ho. repeat split.
  unfold visited. intros E. apply app_eq_nil in E. destruct E; discriminate.
Qed.

(** C8, as stated, fails on an absolute path and on a path that steps
    back: nothing is normalised, the walk starts at [/etc] or at [../other],
    and the manifests opened first lie outside [/builds/proj]. *)
Lemma C8_absolute_path_escapes_root :
  opened (trace (get_codeowners_for_file 3 builds_checker builds_world
                   (py "/etc/passwd")))
  = [py "/etc/CODEOWNERS.md"; py "/CODEOWNERS.md";
     py "/builds/proj/CODEOWNERS.md"]
  /\ below_root (ci_project_dir builds_checker) (py "/etc/CODEOWNERS.md")
     = false
  /\ opened (trace (get_codeowners_for_file 3 builds_checker builds_world
                      (py "../other/x.txt")))
     = [py "/builds/proj/../other/CODEOWNERS.md";
        py "/builds/proj/../CODEOWNERS.md";
        py "/builds/proj/./CODEOWNERS.md";
        py "/builds/proj/CODEOWNERS.md"]
  /\ below_root (ci_project_dir builds_checker)
                (py "/builds/proj/../other/CODEOWNERS.md")
     = false
  /\ ~ (forall (self : checker) (w : world) (file_path : list N)
               (fuel : nat),
           Forall (fun loc => below_root (ci_project_dir self) loc = true)
                  (opened (trace (get_codeowners_for_file fuel self w
                                    file_path)))).
Proof.
  assert (E : opened (trace (get_codeowners_for_file 3 builds_checker
                               builds_world (py "/etc/passwd")))
              = [py "/etc/CODEOWNERS.md"; py "/CODEOWNERS.md";
                 py "/builds/proj/CODEOWNERS.md"])
    by (vm_compute; reflexivity).
  split; [exact E|].
  split; [vm_compute; reflexivity|].
  split; [vm_compute; reflexivity|].
  split; [vm_compute; reflexivity|].
  intros H.
  specialize (H builds_checker builds_world (py "/etc/passwd") 3%nat).
  rewrite E in H. inversion H as [|? ? Hb _]. vm_compute in Hb.
  discriminate Hb.
Qed.

(** C8, as amended: the resolver walks the path as it is written, without
    normalising it.  For a relative path none of whose components is [..],
    every manifest it opens lies at or below the repository root: each is
    the manifest of a directory of the ancestor chain, or the root
    manifest. *)
Theorem C8_relative_paths_stay_below_root
    (self : checker) (w : world) (file_path : list N) (fuel : nat) :
  root (Path_of file_path) = [] ->
  ~ In (py "..") (tail (Path_of file_path)) ->
  (iterations file_path <= fuel)%nat ->
  opened (trace (get_codeowners_for_file fuel self w file_path))
  = List.map (manifest_path self) (ancestors (parent (Path_of file_path)))
    ++ [root_manifest self]
  /\ Forall (fun loc => below_root (ci_project_dir self) loc = true)
            (opened (trace (get_codeowners_for_file fuel self w file_path))).
Proof.
  intros Hrel Hdots Hfuel.
  assert (Ho : opened (trace (get_codeowners_for_file fuel self w file_path))
               = List.map (manifest_path self)
                   (ancestors (parent (Path_of file_path)))
                 ++ [root_manifest self]).
  { rewrite resolve_spec;
      [|apply relative_not_double_slash; exact Hrel|exact Hfuel].
    cbn [trace fst]. unfold resolve_events.
    change (opened (PrintCurrentPath ?p :: ?t)) with (opened t).
    rewrite opened_app, opened_walk_events, opened_read_events.
    reflexivity. }
  split; [exact Ho|]. rewrite Ho. apply Forall_app. split.
  - apply List.Forall_forall. intros loc Hloc.
    apply in_map_iff in Hloc. destruct Hloc as (d & <- & Hd).
    destruct (ancestors_upto_in _ _ _ Hd) as [Hr Ht].
    apply manifest_path_below.
    + rewrite Hr. exact Hrel.
    + apply List.Forall_forall. intros x Hx.
      apply Ht, in_removelast in Hx.
      destruct (Path_of_tail_in _ _ Hx) as (H1 & H2 & H4).
      repeat split; try assumption.
      intros ->. exact (Hdots Hx).
  - constructor; [apply root_manifest_below|constructor].
Qed.

(** C9: a manifest whose read raises anything but [FileNotFoundError]
    contributes the empty owner set and the read returns normally; its trace
    carries the error message, which the trace of a missing manifest does
    not; and every resolution ends as it would if the manifest were
    missing. *)
Theorem C9_read_failure_degrades
    (w : world) (loc e : list N) :
  open_read w loc = OtherException e ->
  read_codeowners_file w loc = ([Open loc; PrintReadError loc e], Done ∅)
  /\ read_codeowners_file (update_file w loc FileNotFoundError) loc
     = ([Open loc], Done ∅)
  /\ forall (self : checker) (fuel : nat) (file_path : list N),
       outcome (get_codeowners_for_file fuel self w file_path)
       = outcome (get_codeowners_for_file fuel self
                    (update_file w loc FileNotFoundError) file_path).
Proof.
  intros He. split; [|split].
  - rewrite read_codeowners_file_spec. unfold read_events, declared.
    rewrite He. reflexivity.
  - rewrite read_codeowners_file_spec. unfold read_events, declared.
    cbn [update_file open_read].
    rewrite bool_decide_eq_true_2 by reflexivity. reflexivity.
  - intros self fuel file_path.
    assert (Hd : forall p, declared (update_file w loc FileNotFoundError) p
                           = declared w p).
    { intros p. unfold declared. cbn [update_file open_read].
      case_bool_decide as Hp; [subst p; rewrite He|]; reflexivity. }
    rewrite !resolve_outcome, Hd.
    assert (Hw : forall n p acc,
               outcome (walk n self w p acc)
               = outcome (walk n self
                            (update_file w loc FileNotFoundError) p acc)).
    { induction n as [|n IH]; intros p acc; [reflexivity|].
      rewrite !walk_step. cbn [outcome snd]. rewrite Hd.
      destruct (bool_decide (p = Path_of (py "."))
                || bool_decide (p = Path_of (py "/")));
        [reflexivity|apply IH]. }
    rewrite Hw. reflexivity.
Qed.

(** C10: the walk that starts from the file [//a/b.txt] never reaches its
    [break]: whatever the fuel, the resolution is still in its loop.  Its
    parent chain is [//a], [//], [//], ..., and [//] equals neither [.] nor
    [/]. *)
Theorem C10_double_slash_walk_never_exits
    (self : checker) (w : world) (fuel : nat) :
  outcome (get_codeowners_for_file fuel self w (py "//a/b.txt")) = OutOfFuel
  /\ parent (Path_of (py "//a/b.txt")) = mkPath (py "//") [py "a"]
  /\ parent (mkPath (py "//") [py "a"]) = mkPath (py "//") []
  /\ parent (mkPath (py "//") []) = mkPath (py "//") []
  /\ mkPath (py "//") [] <> Path_of (py ".")
  /\ mkPath (py "//") [] <> Path_of (py "/").
Proof.
  split; [apply resolve_diverges; reflexivity|].
  repeat split; try reflexivity; discriminate.
Qed.

(** ** The scenarios of the specification *)

Example scenario_A_passes :
  outcome (get_codeowners_for_file 2 here
             (scenario_world [(py "CODEOWNERS.md", Content (py "@alice"))]
                ["alice"%string] ["src/a.txt"%string])
             (py "src/a.txt"))
  = Done {[ py "alice" ]}
  /\ outcome (validate_approvals 2 here
                (scenario_world [(py "CODEOWNERS.md", Content (py "@alice"))]
                   ["alice"%string] ["src/a.txt"%string]))
     = Done true.
Proof. repeat split; vm_compute; reflexivity. Qed.

Example scenario_B_fails :
  outcome (get_codeowners_for_file 3 here scenario_B (py "src/sub/b.txt"))
  = Done {[ py "alice"; py "bob" ]}
  /\ file_verdict 3 here scenario_B [py "carol"] (py "src/sub/b.txt")
     = Some Fail
  /\ outcome (validate_approvals 3 here scenario_B) = Done false.
Proof. repeat split; vm_compute; reflexivity. Qed.

Example scenario_C_passes :
  file_verdict 3 here scenario_C [py "bob"] (py "src/sub/b.txt") = Some Pass
  /\ outcome (validate_approvals 3 here scenario_C) = Done true.
Proof. repeat split; vm_compute; reflexivity. Qed.

(** ** Instances *)

Lemma C4_scenario_D :
  outcome (read_codeowners_file scenario_D (py "./docs/CODEOWNERS.md"))
  = Done (spec_parse (py "/docs/* @dave")).
Proof.
  apply (proj1 (proj2 C4_parse_refines_spec)). reflexivity.
Defined.

Lemma C2_scenario_B :
  exists owners : gset (list N),
    outcome (get_codeowners_for_file 3 here scenario_B (py "src/sub/b.txt"))
    = Done owners
    /\ {[ py "alice" ]} ⊆ owners.
Proof.
  destruct (C2_root_owners_in_every_resolution here scenario_B
              (py "src/sub/b.txt") {[ py "alice" ]}) as [_ Hreturns].
  - vm_compute. reflexivity.
  - apply Hreturns.
    + reflexivity.
    + vm_compute. lia.
Defined.

Lemma C3_scenario_B :
  exists owners : gset (list N),
    outcome (get_codeowners_for_file 3 here scenario_B (py "src/sub/b.txt"))
    = Done owners
    /\ owners = ⋃ (List.map (declared scenario_B)
                     (visited here (py "src/sub/b.txt")))
    /\ (forall (loc : list N) (declared_there : gset (list N)),
           In loc (visited here (py "src/sub/b.txt")) ->
           outcome (read_codeowners_file scenario_B loc)
           = Done declared_there ->
           declared_there ⊆ owners)
    /\ (forall (d : Path),
           In d (ancestors (parent (Path_of (py "src/sub/b.txt")))) ->
           In (manifest_path here d) (visited here (py "src/sub/b.txt")))
    /\ (forall (loc decl : list N),
           exists owners' : gset (list N),
             outcome (get_codeowners_for_file 3 here
                        (add_declaration scenario_B loc decl)
                        (py "src/sub/b.txt"))
             = Done owners'
             /\ owners ⊆ owners').
Proof.
  destruct (C3_resolution_is_monotone_union here scenario_B
              (py "src/sub/b.txt") 3) as [Hreturns Hunion].
  destruct Hreturns as [owners Howners].
  - reflexivity.
  - vm_compute. lia.
  - exists owners. split; [exact Howners|]. apply Hunion. exact Howners.
Defined.

Lemma C5_scenario_unapproved :
  validate_approvals 0 here scenario_unapproved
  = (preamble here scenario_details ++ [PrintNoApprovals], Done false)
  /\ opened (trace (validate_approvals 0 here scenario_unapproved)) = []
  /\ Forall (fun e => verdict_event e = false /\ file_event e = false)
            (trace (validate_approvals 0 here scenario_unapproved))
  /\ forall (w' : world) (fuel' : nat),
       PrintNoApprovals ∈ trace (validate_approvals fuel' here w') ->
       outcome (get_mr_approvals here w') = Done [].
Proof.
  apply (C5_no_approvals_fast_fail here scenario_unapproved
           scenario_details 0).
  - reflexivity.
  - reflexivity.
Defined.

Lemma C6_scenario_unchanged :
  validate_approvals 0 here scenario_unchanged
  = (preamble here scenario_details
       ++ [PrintApprovers [py "bob"]; HttpGet (changes_url here);
           PrintNoFilesChanged],
     Done true)
  /\ opened (trace (validate_approvals 0 here scenario_unchanged)) = []
  /\ Forall (fun e => file_event e = false)
            (trace (validate_approvals 0 here scenario_unchanged)).
Proof.
  apply (C6_no_changed_files_pass here scenario_unchanged
           scenario_details [py "bob"] 0).
  - reflexivity.
  - reflexivity.
  - discriminate.
  - reflexivity.
Defined.

Lemma C7_scenario_B :
  outcome (resolve_twice 4 here scenario_B (py "src/sub/b.txt"))
  = Done (resolved here scenario_B (py "src/sub/b.txt"),
          resolved here scenario_B (py "src/sub/b.txt"))
  /\ opened (trace (get_codeowners_for_file 4 here scenario_B
                      (py "src/sub/b.txt")))
     = visited here (py "src/sub/b.txt")
  /\ opened (trace (resolve_twice 4 here scenario_B (py "src/sub/b.txt")))
     = visited here (py "src/sub/b.txt") ++ visited here (py "src/sub/b.txt")
  /\ visited here (py "src/sub/b.txt") <> [].
Proof.
  apply (C7_second_resolution_reads_again here scenario_B
           (py "src/sub/b.txt") 4).
  - reflexivity.
  - vm_compute. lia.
Defined.

Lemma C8_scenario_B :
  opened (trace (get_codeowners_for_file 4 builds_checker builds_world
                   (py "src/sub/b.txt")))
  = List.map (manifest_path builds_checker)
      (ancestors (parent (Path_of (py "src/sub/b.txt"))))
    ++ [root_manifest builds_checker]
  /\ Forall (fun loc => below_root (ci_project_dir builds_checker) loc = true)
            (opened (trace (get_codeowners_for_file 4 builds_checker
                              builds_world (py "src/sub/b.txt")))).
Proof.
  apply (C8_relative_paths_stay_below_root builds_checker builds_world
           (py "src/sub/b.txt") 4).
  - reflexivity.
  - vm_compute. intros [H|[H|[H|[]]]]; discriminate H.
  - vm_compute. lia.
Defined.

Lemma C9_scenario_unreadable :
  read_codeowners_file scenario_unreadable (py "./src/CODEOWNERS.md")
  = ([Open (py "./src/CODEOWNERS.md");
      PrintReadError (py "./src/CODEOWNERS.md") (py "Permission denied")],
     Done ∅)
  /\ read_codeowners_file
       (update_file scenario_unreadable (py "./src/CODEOWNERS.md")
          FileNotFoundError)
       (py "./src/CODEOWNERS.md")
     = ([Open (py "./src/CODEOWNERS.md")], Done ∅)
  /\ forall (self : checker) (fuel : nat) (file_path : list N),
       outcome (get_codeowners_for_file fuel self scenario_unreadable
                  file_path)
       = outcome (get_codeowners_for_file fuel self
                    (update_file scenario_unreadable
                       (py "./src/CODEOWNERS.md") FileNotFoundError)
                    file_path).
Proof.
  apply (C9_read_failure_degrades scenario_unreadable
           (py "./src/CODEOWNERS.md") (py "Permission denied")).
  reflexivity.
Defined.

(** * More of the program *)

(** ** What the getters return *)

Lemma truthy_nonempty (o : option (list N)) :
  truthy o = true <-> exists u, o = Some u /\ u <> [].
Proof.
  destruct o as [[|c u]|]; simpl; split; try discriminate.
  - intros (u & [= <-] & H). contradiction.
  - intros _. eexists. split; [reflexivity|discriminate].
  - intros _. reflexivity.
  - intros (u & [=] & _).
Qed.

Lemma approver_of_Some (a : approval) (u : list N) :
  approver_of a = Some u <-> username a = Some u /\ u <> [].
Proof.
  unfold approver_of. destruct (username a) as [[|c n]|]; simpl.
  - split; [discriminate|]. intros [[= <-] H]. contradiction.
  - split.
    + intros [= <-]. split; [reflexivity|discriminate].
    + intros [[= <-] _]. reflexivity.
  - split; [discriminate|]. intros [[=] _].
Qed.

Lemma approvers_fold (data : list approval) :
  forall acc : list (list N),
    fold_left
      (fun approvers a =>
         match username a with
         | Some u => if truthy (Some u) then approvers ++ [u] else approvers
         | None => approvers
         end) data acc
    = acc ++ omap approver_of data.
Proof.
  induction data as [|a data IH]; intros acc; cbn [fold_left].
  - cbn. rewrite app_nil_r. reflexivity.
  - rewrite IH. change (omap approver_of (a :: data))
      with (match approver_of a with
            | Some u => u :: omap approver_of data
            | None => omap approver_of data
            end).
    unfold approver_of. destruct (username a) as [[|c n]|]; cbn [truthy].
    + reflexivity.
    + rewrite <- app_assoc. reflexivity.
    + reflexivity.
Qed.

Lemma changed_files_fold (data : list change) :
  forall acc : list (list N),
    fold_left
      (fun changed_files c =>
         let changed_files :=
           match new_path c with
           | Some p => if truthy (Some p) then changed_files ++ [p]
                       else changed_files
           | None => changed_files
           end in
         match old_path c with
         | Some p =>
             if truthy (Some p)
                && negb (bool_decide (old_path c = new_path c))
             then changed_files ++ [p] else changed_files
         | None => changed_files
         end) data acc
    = acc ++ flat_map paths_of data.
Proof.
  induction data as [|c data IH]; intros acc; cbn [fold_left flat_map].
  - rewrite app_nil_r. reflexivity.
  - rewrite IH. unfold paths_of.
    destruct (new_path c) as [[|x p]|], (old_path c) as [[|y q]|];
      cbn [truthy andb default app];
      try (destruct (negb (bool_decide _))); cbn [app];
      rewrite <- ?app_assoc; reflexivity.
Qed.

Lemma get_mr_approvals_ok (self : checker) (w : world)
    (data : list approval) :
  approved_by w = Ok data ->
  get_mr_approvals self w
  = ([HttpGet (approvals_url self)], Done (omap approver_of data)).
Proof.
  intros H. unfold get_mr_approvals. rewrite H, emit_then, approvers_fold.
  reflexivity.
Qed.

Lemma get_changed_files_ok (self : checker) (w : world)
    (data : list change) :
  changes w = Ok data ->
  get_changed_files self w
  = ([HttpGet (changes_url self)], Done (flat_map paths_of data)).
Proof.
  intros H. unfold get_changed_files.
  rewrite H, emit_then, changed_files_fold. reflexivity.
Qed.

Lemma paths_of_nonempty (c : change) :
  Forall (fun p => p <> []) (paths_of c).
Proof.
  unfold paths_of. apply Forall_app. split.
  - destruct (new_path c) as [[|x p]|]; cbn; repeat constructor.
    discriminate.
  - destruct (old_path c) as [[|y q]|]; cbn [truthy andb];
      try (destruct (negb (bool_decide _))); cbn; repeat constructor.
    discriminate.
Qed.

Lemma paths_of_length (c : change) : (length (paths_of c) <= 2)%nat.
Proof.
  unfold paths_of. rewrite length_app.
  destruct (truthy (new_path c)),
    (truthy (old_path c) && negb (bool_decide (old_path c = new_path c)));
    simpl; lia.
Qed.

(** X1: the approvers are the non-empty usernames of the response, in the
    order of the response: an approval without a user name, or with an
    empty one, is passed over, and no approver is the empty string. *)
Theorem X1_approvers_are_the_nonempty_usernames
    (self : checker) (w : world) (data : list approval) :
  approved_by w = Ok data ->
  exists approvers : list (list N),
    get_mr_approvals self w = ([HttpGet (approvals_url self)], Done approvers)
    /\ approvers = omap approver_of data
    /\ (forall u, In u approvers <->
                  u <> [] /\ exists a, In a data /\ username a = Some u)
    /\ (length approvers <= length data)%nat.
Proof.
  intros H. exists (omap approver_of data).
  split; [apply get_mr_approvals_ok, H|]. split; [reflexivity|]. split.
  - intros u. rewrite <- list_elem_of_In, list_elem_of_omap. split.
    + intros (a & Ha & Hu). apply approver_of_Some in Hu.
      destruct Hu as [Hu Hne]. split; [exact Hne|].
      exists a. split; [apply list_elem_of_In, Ha|exact Hu].
    + intros (Hne & a & Ha & Hu). exists a.
      split; [apply list_elem_of_In, Ha|].
      apply approver_of_Some. split; assumption.
  - clear H. induction data as [|a data IH]; [reflexivity|].
    change (omap approver_of (a :: data))
      with (match approver_of a with
            | Some u => u :: omap approver_of data
            | None => omap approver_of data
            end).
    destruct (approver_of a); simpl; lia.
Qed.

(** X2: the changed files are, change by change, the new path and then
    the old path when it differs from the new one; missing and empty paths
    are passed over.  So a renamed file contributes both its paths, the new
    one first, a file that kept its path contributes it once, no changed
    file is the empty string, and there are at most two per change. *)
Theorem X2_changed_files_hold_both_paths_of_a_rename
    (self : checker) (w : world) (data : list change) :
  changes w = Ok data ->
  exists changed_files : list (list N),
    get_changed_files self w
    = ([HttpGet (changes_url self)], Done changed_files)
    /\ changed_files = flat_map paths_of data
    /\ Forall (fun p => p <> []) changed_files
    /\ (length changed_files <= 2 * length data)%nat
    /\ (forall (before after : list change) (c : change) (new old : list N),
           data = before ++ c :: after ->
           new_path c = Some new -> old_path c = Some old ->
           new <> [] -> old <> [] ->
           changed_files
           = flat_map paths_of before
             ++ (if bool_decide (old = new) then [new] else [new; old])
             ++ flat_map paths_of after).
Proof.
  intros H. exists (flat_map paths_of data).
  split; [apply get_changed_files_ok, H|]. split; [reflexivity|].
  split; [|split].
  - clear H. induction data as [|c data IH]; [constructor|].
    cbn [flat_map]. apply Forall_app. split; [apply paths_of_nonempty|].
    exact IH.
  - clear H. induction data as [|c data IH]; [simpl; lia|].
    cbn [flat_map length]. rewrite length_app.
    pose proof (paths_of_length c). lia.
  - intros before after c new old -> Hnew Hold Hn Ho.
    rewrite flat_map_app. cbn [flat_map]. f_equal. f_equal.
    unfold paths_of. rewrite Hnew, Hold.
    destruct new as [|x new]; [contradiction|].
    destruct old as [|y old]; [contradiction|].
    cbn [truthy default andb app].
    destruct (decide (y :: old = x :: new)) as [E|E].
    + rewrite E. rewrite !bool_decide_eq_true_2 by reflexivity.
      reflexivity.
    + rewrite !bool_decide_eq_false_2 by congruence. reflexivity.
Qed.

(** ** How every run ends *)

Lemma walk_never_exits (self : checker) (w : world) (fuel : nat) :
  forall (p : Path) (acc : gset (list N)) (code : N),
    outcome (walk fuel self w p acc) <> SysExit code.
Proof.
  induction fuel as [|fuel IH]; intros p acc code; [discriminate|].
  rewrite walk_step. cbn [outcome snd].
  destruct (bool_decide (p = Path_of (py "."))
            || bool_decide (p = Path_of (py "/")));
    [discriminate|apply IH].
Qed.

Lemma resolvable_iff (fuel : nat) (file_path : list N) :
  resolvable fuel file_path = true
  <-> double_slash_rooted file_path = false
      /\ (iterations file_path <= fuel)%nat.
Proof.
  unfold resolvable. rewrite andb_true_iff, negb_true_iff, Nat.leb_le.
  reflexivity.
Qed.

Lemma resolve_outcome_cases (self : checker) (w : world) (fuel : nat)
    (file_path : list N) :
  outcome (get_codeowners_for_file fuel self w file_path)
  = if resolvable fuel file_path then Done (resolved self w file_path)
    else OutOfFuel.
Proof.
  destruct (resolvable fuel file_path) eqn:Hr.
  - apply resolvable_iff in Hr. destruct Hr as [Hds Hfuel].
    rewrite resolve_spec by assumption. reflexivity.
  - destruct (outcome (get_codeowners_for_file fuel self w file_path))
      as [owners|code|] eqn:Ho; [| |reflexivity].
    + apply resolve_done_inv in Ho. apply resolvable_iff in Ho. congruence.
    + rewrite resolve_outcome in Ho.
      destruct (outcome (walk fuel self w (parent (Path_of file_path)) ∅))
        as [all_owners|code'|] eqn:Hw; try discriminate.
      destruct (walk_never_exits _ _ _ _ _ _ Hw).
Qed.

Lemma check_file_outcome (self : checker) (w : world) (fuel : nat)
    (approvers : list (list N)) (file_path : list N) (vf : bool) :
  outcome (check_file fuel self w approvers file_path vf)
  = if resolvable fuel file_path
    then Done (vf || bool_decide (spec_verdict approvers
                                    (resolved self w file_path) = Fail))
    else OutOfFuel.
Proof.
  destruct (resolvable fuel file_path) eqn:Hr.
  - apply resolvable_iff in Hr. destruct Hr as [Hds Hfuel].
    rewrite check_file_spec by assumption. reflexivity.
  - unfold check_file. rewrite emit_then. cbn [outcome snd].
    rewrite outcome_bind, resolve_outcome_cases, Hr. reflexivity.
Qed.

Lemma for_in_check_file_outcome (self : checker) (w : world) (fuel : nat)
    (approvers : list (list N)) (files : list (list N)) :
  forall vf : bool,
    outcome (for_in files (check_file fuel self w approvers) vf)
    = if forallb (resolvable fuel) files
      then Done (vf || any_file_fails self w approvers files)
      else OutOfFuel.
Proof.
  induction files as [|f files IH]; intros vf.
  - cbn. rewrite orb_false_r. reflexivity.
  - rewrite for_in_cons, outcome_bind, check_file_outcome.
    cbn [forallb]. destruct (resolvable fuel f); [|reflexivity].
    rewrite IH. cbn [andb]. destruct (forallb (resolvable fuel) files);
      [|reflexivity].
    unfold any_file_fails. cbn [existsb]. rewrite orb_assoc. reflexivity.
Qed.

Lemma validate_approvals_outcome (fuel : nat) (self : checker) (w : world) :
  outcome (validate_approvals fuel self w) = run_outcome fuel self w.
Proof.
  unfold validate_approvals, run_outcome.
  rewrite emit_then. cbn [outcome snd]. rewrite outcome_bind.
  destruct (merge_request w) as [details|e] eqn:Hd.
  2:{ unfold get_mr_details. rewrite Hd, !emit_then. reflexivity. }
  rewrite (get_mr_details_ok _ _ _ Hd). cbn [outcome snd].
  rewrite emit_then. cbn [snd]. rewrite outcome_bind.
  destruct (approved_by w) as [approvals_data|e] eqn:Ha.
  2:{ unfold get_mr_approvals. rewrite Ha, !emit_then. reflexivity. }
  rewrite (get_mr_approvals_ok _ _ _ Ha). cbn [outcome snd].
  case_bool_decide as Hna; [reflexivity|].
  rewrite emit_then. cbn [snd]. rewrite outcome_bind.
  destruct (changes w) as [changes_data|e] eqn:Hc.
  2:{ unfold get_changed_files. rewrite Hc, !emit_then. reflexivity. }
  rewrite (get_changed_files_ok _ _ _ Hc). cbn [outcome snd].
  case_bool_decide as Hnc; [reflexivity|].
  rewrite emit_then. cbn [snd].
  rewrite for_in_print_changed, bind_done. cbn [outcome snd].
  rewrite outcome_bind, for_in_check_file_outcome.
  destruct (forallb (resolvable fuel) (flat_map paths_of changes_data));
    [|reflexivity].
  cbn [orb]. destruct (any_file_fails _ _ _ _); reflexivity.
Qed.

Lemma validate_details_failed (fuel : nat) (self : checker) (w : world)
    (e : list N) :
  merge_request w = RequestException e ->
  validate_approvals fuel self w
  = ([PrintStarting; PrintUrl (details_url self); HttpGet (details_url self);
      PrintFetchError (py "MR details") e], SysExit 1).
Proof.
  intros H. unfold validate_approvals, get_mr_details.
  rewrite H, !emit_then. reflexivity.
Qed.

Lemma validate_approvals_failed (fuel : nat) (self : checker) (w : world)
    (details : mr_details) (e : list N) :
  merge_request w = Ok details ->
  approved_by w = RequestException e ->
  validate_approvals fuel self w
  = (preamble self details ++ [PrintFetchError (py "MR approvals") e],
     SysExit 1).
Proof.
  intros Hd Ha. unfold validate_approvals.
  rewrite emit_then, (get_mr_details_ok _ _ _ Hd), bind_done, emit_then.
  unfold get_mr_approvals. rewrite Ha, !emit_then. reflexivity.
Qed.

Lemma validate_changes_failed (fuel : nat) (self : checker) (w : world)
    (details : mr_details) (approvers : list (list N)) (e : list N) :
  merge_request w = Ok details ->
  outcome (get_mr_approvals self w) = Done approvers ->
  approvers <> [] ->
  changes w = RequestException e ->
  validate_approvals fuel self w
  = (preamble self details
       ++ [PrintApprovers approvers; HttpGet (changes_url self);
           PrintFetchError (py "MR changes") e],
     SysExit 1).
Proof.
  intros Hd Ha Hna Hc.
  rewrite (validate_approvals_start _ _ _ _ _ Hd Ha).
  rewrite (bool_decide_eq_false_2 _ Hna), emit_then.
  unfold get_changed_files. rewrite Hc, !emit_then. reflexivity.
Qed.

(** X3: a request that fails ends the run at once with exit code 1, after
    the message that names the request: no later request is made and no
    manifest is opened.  This holds for the request of the merge request,
    of its approvals and of its changes. *)
Theorem X3_failed_request_exits_with_1
    (fuel : nat) (self : checker) (w : world) (e : list N) :
  (merge_request w = RequestException e ->
   validate_approvals fuel self w
   = ([PrintStarting; PrintUrl (details_url self);
       HttpGet (details_url self); PrintFetchError (py "MR details") e],
      SysExit 1))
  /\ (forall details : mr_details,
         merge_request w = Ok details ->
         approved_by w = RequestException e ->
         validate_approvals fuel self w
         = (preamble self details
              ++ [PrintFetchError (py "MR approvals") e], SysExit 1))
  /\ (forall (details : mr_details) (approvers : list (list N)),
         merge_request w = Ok details ->
         outcome (get_mr_approvals self w) = Done approvers ->
         approvers <> [] ->
         changes w = RequestException e ->
         validate_approvals fuel self w
         = (preamble self details
              ++ [PrintApprovers approvers; HttpGet (changes_url self);
                  PrintFetchError (py "MR changes") e],
            SysExit 1)
         /\ opened (trace (validate_approvals fuel self w)) = []).
Proof.
  split; [apply validate_details_failed|].
  split; [intros details; apply validate_approvals_failed|].
  intros details approvers Hd Ha Hna Hc.
  rewrite (validate_changes_failed _ _ _ _ _ _ Hd Ha Hna Hc).
  split; reflexivity.
Qed.

(** X4: the checker leaves through [sys.exit] only when a request has
    failed, and then with code 1 and without having opened a manifest: the
    request of the merge request, or after it the request of the
    approvals, or, with some approver, the request of the changes.  A
    failing request of the changes is never seen when nobody approved. *)
Theorem X4_exit_only_after_a_failed_request
    (fuel : nat) (self : checker) (w : world) (code : N) :
  outcome (validate_approvals fuel self w) = SysExit code ->
  code = 1
  /\ opened (trace (validate_approvals fuel self w)) = []
  /\ ((exists e, merge_request w = RequestException e)
      \/ (exists details e,
             merge_request w = Ok details
             /\ approved_by w = RequestException e)
      \/ (exists details approvers e,
             merge_request w = Ok details
             /\ outcome (get_mr_approvals self w) = Done approvers
             /\ approvers <> []
             /\ changes w = RequestException e)).
Proof.
  rewrite validate_approvals_outcome. unfold run_outcome.
  destruct (merge_request w) as [details|e] eqn:Hd.
  2:{ intros [= <-]. rewrite (validate_details_failed _ _ _ _ Hd).
      repeat split. left. eauto. }
  destruct (approved_by w) as [approvals_data|e] eqn:Ha.
  2:{ intros [= <-]. rewrite (validate_approvals_failed _ _ _ _ _ Hd Ha).
      repeat split. right. left. eauto. }
  case_bool_decide as Hna; [discriminate|].
  destruct (changes w) as [changes_data|e] eqn:Hc.
  - case_bool_decide; [discriminate|].
    destruct (forallb _ _); discriminate.
  - intros [= <-].
    assert (Hout : outcome (get_mr_approvals self w)
                   = Done (omap approver_of approvals_data))
      by (rewrite (get_mr_approvals_ok _ _ _ Ha); reflexivity).
    rewrite (validate_changes_failed _ _ _ _ _ _ Hd Hout Hna Hc).
    repeat split. right. right. eauto 10.
Qed.

(** ** The requests of a run *)

Lemma requested_app (t1 t2 : list event) :
  requested (t1 ++ t2) = requested t1 ++ requested t2.
Proof. apply omap_app. Qed.

Lemma requested_file_events (t : list event) :
  Forall (fun e => file_event e = true) t -> requested t = [].
Proof.
  induction 1 as [|e t He _ IH]; [reflexivity|].
  destruct e; try discriminate He; exact IH.
Qed.

Lemma requested_print_changed (files : list (list N)) :
  requested (List.map PrintChangedFile files) = [].
Proof. induction files as [|f files IH]; [reflexivity|exact IH]. Qed.

(** X5: a run makes at most three requests, always in the same order: the
    merge request, its approvals, its changes.  The changes are requested
    only when the approvals were received and name somebody. *)
Theorem X5_requests_in_fixed_order
    (fuel : nat) (self : checker) (w : world) :
  (requested (trace (validate_approvals fuel self w)) = [details_url self]
   /\ exists e, merge_request w = RequestException e)
  \/ (requested (trace (validate_approvals fuel self w))
      = [details_url self; approvals_url self]
      /\ (outcome (get_mr_approvals self w) = Done []
          \/ exists e, approved_by w = RequestException e))
  \/ (requested (trace (validate_approvals fuel self w))
      = [details_url self; approvals_url self; changes_url self]
      /\ exists approvers,
           outcome (get_mr_approvals self w) = Done approvers
           /\ approvers <> []).
Proof.
  destruct (merge_request w) as [details|e] eqn:Hd.
  2:{ left. rewrite (validate_details_failed _ _ _ _ Hd).
      split; [reflexivity|eauto]. }
  right.
  destruct (approved_by w) as [approvals_data|e] eqn:Ha.
  2:{ left. rewrite (validate_approvals_failed _ _ _ _ _ Hd Ha).
      split; [reflexivity|eauto]. }
  assert (Hout : outcome (get_mr_approvals self w)
                 = Done (omap approver_of approvals_data))
    by (rewrite (get_mr_approvals_ok _ _ _ Ha); reflexivity).
  rewrite (validate_approvals_start _ _ _ _ _ Hd Hout). cbn [trace fst].
  rewrite requested_app.
  change (requested (preamble self details))
    with [details_url self; approvals_url self].
  case_bool_decide as Hna.
  { left. split; [reflexivity|]. left. rewrite Hout, Hna. reflexivity. }
  right. split; [|eauto].
  rewrite emit_then. cbn [trace fst].
  change (requested (PrintApprovers ?a :: ?t)) with (requested t).
  rewrite trace_bind, requested_app.
  destruct (changes w) as [changes_data|e] eqn:Hc.
  2:{ unfold get_changed_files. rewrite Hc, !emit_then. reflexivity. }
  rewrite (get_changed_files_ok _ _ _ Hc). cbn [trace outcome fst snd].
  change (requested [HttpGet (changes_url self)]) with [changes_url self].
  cbn [app]. do 3 f_equal.
  case_bool_decide as Hnc; [reflexivity|].
  rewrite emit_then, for_in_print_changed, bind_done. cbn [trace fst].
  change (requested (PrintChangedFiles ?n :: ?t)) with (requested t).
  rewrite requested_app, requested_print_changed, trace_bind, requested_app.
  rewrite (requested_file_events _
             (for_in_check_file_events self w fuel _ _ false)).
  destruct (outcome (for_in _ _ false)) as [[|]| |]; reflexivity.
Qed.

(** ** The constructor *)

Lemma init_check (environ : gmap (list N) (list N)) :
  forallb truthy (List.map (fun name => environ !! name) required_variables)
  = true
  <-> forall name, In name required_variables -> is_set environ name.
Proof.
  rewrite forallb_forall. split.
  - intros H name Hin. apply truthy_nonempty, H, in_map_iff.
    exists name. split; [reflexivity|exact Hin].
  - intros H o Ho. apply in_map_iff in Ho. destruct Ho as (name & <- & Hin).
    apply truthy_nonempty, H, Hin.
Qed.

Lemma init_cases (environ : gmap (list N) (list N)) :
  init environ
  = if forallb truthy
         (List.map (fun name => environ !! name) required_variables)
    then Constructed
           {| gitlab_token := default [] (environ !! py "GITLAB_TOKEN");
              attributes :=
                {| ci_api_v4_url :=
                     default [] (environ !! py "CI_API_V4_URL");
                   ci_project_id :=
                     default [] (environ !! py "CI_PROJECT_ID");
                   ci_merge_request_iid :=
                     default [] (environ !! py "CI_MERGE_REQUEST_IID");
                   ci_project_dir :=
                     default (py ".") (environ !! py "CI_PROJECT_DIR") |};
              headers :=
                {[ py "PRIVATE-TOKEN"
                   := default [] (environ !! py "GITLAB_TOKEN") ]};
              self_base_url :=
                default [] (environ !! py "CI_API_V4_URL")
                ++ py "/projects/"
                ++ default [] (environ !! py "CI_PROJECT_ID") |}
    else ValueError missing_variables.
Proof.
  unfold init.
  change (List.map (fun name => environ !! name) required_variables)
    with [environ !! py "GITLAB_TOKEN"; environ !! py "CI_API_V4_URL";
          environ !! py "CI_PROJECT_ID";
          environ !! py "CI_MERGE_REQUEST_IID"].
  destruct (forallb truthy _); reflexivity.
Qed.

Lemma init_missing (environ : gmap (list N) (list N)) :
  (exists name, In name required_variables /\ ~ is_set environ name) ->
  init environ = ValueError missing_variables.
Proof.
  intros (name & Hin & Hno). rewrite init_cases.
  destruct (forallb truthy _) eqn:Hall; [|reflexivity].
  destruct (Hno (proj1 (init_check environ) Hall name Hin)).
Qed.

(** X6: [__init__] builds the checker exactly when the token, the API URL,
    the project id and the merge request id are all set to non-empty
    values, and raises [ValueError] otherwise, also for a variable that is
    set but empty.  The object then holds those four values, the token
    again under the request header [PRIVATE-TOKEN], the base URL made of
    the API URL and the project id, and as project directory the value of
    [CI_PROJECT_DIR], even an empty one, or [.] when it is not set. *)
Theorem X6_init_needs_four_variables (environ : gmap (list N) (list N)) :
  ((exists obj, init environ = Constructed obj)
   <-> forall name, In name required_variables -> is_set environ name)
  /\ ((exists name, In name required_variables /\ ~ is_set environ name)
      -> init environ = ValueError missing_variables)
  /\ forall obj : CodeownersChecker,
       init environ = Constructed obj ->
       environ !! py "GITLAB_TOKEN" = Some (gitlab_token obj)
       /\ environ !! py "CI_API_V4_URL"
          = Some (ci_api_v4_url (attributes obj))
       /\ environ !! py "CI_PROJECT_ID"
          = Some (ci_project_id (attributes obj))
       /\ environ !! py "CI_MERGE_REQUEST_IID"
          = Some (ci_merge_request_iid (attributes obj))
       /\ headers obj = {[ py "PRIVATE-TOKEN" := gitlab_token obj ]}
       /\ self_base_url obj
          = ci_api_v4_url (attributes obj) ++ py "/projects/"
            ++ ci_project_id (attributes obj)
       /\ ci_project_dir (attributes obj)
          = match environ !! py "CI_PROJECT_DIR" with
            | Some dir => dir
            | None => py "."
            end.
Proof.
  rewrite init_cases.
  destruct (forallb truthy _) eqn:Hall.
  - pose proof (proj1 (init_check environ) Hall) as Hset. clear Hall.
    rename Hset into Hall. split; [|split].
    + split; [intros _; exact Hall|eauto].
    + intros (name & Hin & Hno). destruct (Hno (Hall name Hin)).
    + intros obj [= <-].
      destruct (Hall (py "GITLAB_TOKEN")) as (v1 & E1 & _);
        [unfold required_variables; simpl; tauto|].
      destruct (Hall (py "CI_API_V4_URL")) as (v2 & E2 & _);
        [unfold required_variables; simpl; tauto|].
      destruct (Hall (py "CI_PROJECT_ID")) as (v3 & E3 & _);
        [unfold required_variables; simpl; tauto|].
      destruct (Hall (py "CI_MERGE_REQUEST_IID")) as (v4 & E4 & _);
        [unfold required_variables; simpl; tauto|].
      cbn [gitlab_token attributes headers self_base_url ci_api_v4_url
           ci_project_id ci_merge_request_iid ci_project_dir].
      rewrite E1, E2, E3, E4. repeat split.
  - split; [|split].
    + split; [intros (obj & [=])|].
      intros H. apply (proj2 (init_check environ)) in H. congruence.
    + reflexivity.
    + intros obj [=].
Qed.

(** ** The entry point *)

Lemma spec_verdict_not_fail (approvers : list (list N))
    (owners : gset (list N)) :
  spec_verdict approvers owners <> Fail
  <-> owners = ∅ \/ exists a, In a approvers /\ a ∈ owners.
Proof.
  unfold spec_verdict. case_bool_decide as Ho.
  { split; [auto|discriminate]. }
  case_bool_decide as Hi.
  - split; [congruence|]. intros [E|(a & Ha & Hin)]; [contradiction|].
    apply list_elem_of_In in Ha. set_solver.
  - split; [|discriminate]. intros _. right.
    apply set_choose_L in Hi. destruct Hi as (a & Ha).
    apply elem_of_intersection in Ha. destruct Ha as [Ha Hin].
    apply elem_of_list_to_set, list_elem_of_In in Ha. eauto.
Qed.

Lemma validate_exit_code (fuel : nat) (self : checker) (w : world)
    (code : N) :
  outcome (validate_approvals fuel self w) = SysExit code -> code = 1.
Proof.
  rewrite validate_approvals_outcome. unfold run_outcome.
  destruct (merge_request w); [|congruence].
  destruct (approved_by w); [|congruence].
  case_bool_decide; [discriminate|].
  destruct (changes w); [|congruence].
  case_bool_decide; [discriminate|].
  destruct (forallb _ _); discriminate.
Qed.

Lemma main_cases (fuel : nat) (environ : gmap (list N) (list N))
    (w : world) :
  snd (main fuel environ w)
  = match init environ with
    | ValueError _ => SysExit 1
    | Constructed obj =>
        match outcome (validate_approvals fuel (attributes obj) w) with
        | Done success => SysExit (if success then 0 else 1)
        | SysExit code => SysExit code
        | OutOfFuel => OutOfFuel
        end
    end.
Proof.
  unfold main. destruct (init environ) as [obj|e]; [|reflexivity].
  destruct (validate_approvals fuel (attributes obj) w) as [t [[|]| |]];
    reflexivity.
Qed.

(** X7: [main] ends with exit code 0 or 1 and nothing else.  The code is 1
    when a required variable is missing, when a request failed, when
    nobody approved and when some changed file lacks an authorized
    approver: that is, whenever the checker could not be built or
    [validate_approvals] did not return [True].  When a variable is
    missing the failure message is all that happens: no request is made
    and no manifest is opened. *)
Theorem X7_main_exit_code
    (fuel : nat) (environ : gmap (list N) (list N)) (w : world) :
  (forall code, snd (main fuel environ w) = SysExit code ->
                code = 0 \/ code = 1)
  /\ (snd (main fuel environ w) = SysExit 1
      <-> init environ = ValueError missing_variables
          \/ exists obj,
               init environ = Constructed obj
               /\ (outcome (validate_approvals fuel (attributes obj) w)
                   = Done false
                   \/ outcome (validate_approvals fuel (attributes obj) w)
                      = SysExit 1))
  /\ ((exists name, In name required_variables /\ ~ is_set environ name)
      -> main fuel environ w
         = ([PrintScriptFailed missing_variables], SysExit 1)).
Proof.
  rewrite main_cases. split; [|split].
  - intros code. destruct (init environ) as [obj|e].
    + destruct (outcome (validate_approvals fuel (attributes obj) w))
        as [[|]|c|] eqn:Ho; intros [= <-]; auto.
      apply validate_exit_code in Ho. auto.
    + intros [= <-]. auto.
  - pose proof (init_cases environ) as Hi.
    destruct (init environ) as [obj|e].
    + split.
      * intros H. right. exists obj. split; [reflexivity|].
        destruct (outcome (validate_approvals fuel (attributes obj) w))
          as [[|]|c|]; try discriminate; [auto|right; injection H as ->; reflexivity].
      * intros [[=]|(obj' & [= <-] & [-> | ->])]; reflexivity.
    + split; [|reflexivity]. intros _. left.
      destruct (forallb truthy _); [discriminate|exact Hi].
  - intros Hmiss. unfold main.
    rewrite (init_missing environ Hmiss). reflexivity.
Qed.

Lemma all_files_pass (self : checker) (w : world) (fuel : nat)
    (approvers files : list (list N)) :
  forallb (resolvable fuel) files = true
  /\ any_file_fails self w approvers files = false
  <-> forall f, In f files ->
        exists owners : gset (list N),
          outcome (get_codeowners_for_file fuel self w f) = Done owners
          /\ (owners = ∅ \/ exists a, In a approvers /\ a ∈ owners).
Proof.
  unfold any_file_fails.
  rewrite forallb_forall, <- not_true_iff_false, existsb_exists. split.
  - intros [Hres Hnone] f Hf. exists (resolved self w f).
    rewrite resolve_outcome_cases, (Hres f Hf). split; [reflexivity|].
    apply spec_verdict_not_fail. intros E. apply Hnone.
    exists f. split; [exact Hf|]. apply bool_decide_eq_true. exact E.
  - intros H. split.
    + intros f Hf. destruct (H f Hf) as (owners & Ho & _).
      rewrite resolve_outcome_cases in Ho.
      destruct (resolvable fuel f); [reflexivity|discriminate].
    + intros (f & Hf & E). apply bool_decide_eq_true in E.
      destruct (H f Hf) as (owners & Ho & Hok).
      rewrite resolve_outcome_cases in Ho.
      destruct (resolvable fuel f); [|discriminate].
      injection Ho as <-. apply spec_verdict_not_fail in Hok.
      contradiction.
Qed.

(** X8: [main] ends with exit code 0 exactly when the checker was built,
    the three requests succeeded, somebody approved, and every changed
    path, old paths of renamed files included, was resolved to an owner set
    that is empty or holds one of the approvers. *)
Theorem X8_exit_0_iff_every_owned_file_is_approved
    (fuel : nat) (environ : gmap (list N) (list N)) (w : world) :
  snd (main fuel environ w) = SysExit 0
  <-> exists (obj : CodeownersChecker) (details : mr_details)
             (approvals_data : list approval) (changes_data : list change),
        init environ = Constructed obj
        /\ merge_request w = Ok details
        /\ approved_by w = Ok approvals_data
        /\ changes w = Ok changes_data
        /\ omap approver_of approvals_data <> []
        /\ forall f, In f (flat_map paths_of changes_data) ->
             exists owners : gset (list N),
               outcome (get_codeowners_for_file fuel (attributes obj) w f)
               = Done owners
               /\ (owners = ∅
                   \/ exists a, In a (omap approver_of approvals_data)
                                /\ a ∈ owners).
Proof.
  rewrite main_cases. destruct (init environ) as [obj|msg].
  2:{ split; [discriminate|]. intros (obj & ? & ? & ? & [=] & _). }
  rewrite validate_approvals_outcome. unfold run_outcome.
  destruct (merge_request w) as [details|e].
  2:{ split; [discriminate|]. intros (? & ? & ? & ? & _ & [=] & _). }
  destruct (approved_by w) as [approvals_data|e].
  2:{ split; [discriminate|]. intros (? & ? & ? & ? & _ & _ & [=] & _). }
  case_bool_decide as Hna.
  { split; [discriminate|].
    intros (? & ? & ? & ? & _ & _ & [= <-] & _ & Hne & _). contradiction. }
  destruct (changes w) as [changes_data|e].
  2:{ split; [discriminate|].
      intros (? & ? & ? & ? & _ & _ & _ & [=] & _). }
  pose proof (all_files_pass (attributes obj) w fuel
                (omap approver_of approvals_data)
                (flat_map paths_of changes_data)) as Hall.
  split.
  - intros Hexit. exists obj, details, approvals_data, changes_data.
    repeat (split; [reflexivity || assumption|]).
    apply Hall. case_bool_decide as Hnc.
    + rewrite Hnc. split; reflexivity.
    + destruct (forallb _ _); [|discriminate]. split; [reflexivity|].
      destruct (any_file_fails _ _ _ _); [discriminate|reflexivity].
  - intros (obj' & ? & ? & ? & [= <-] & _ & [= <-] & [= <-] & _ & Hpass).
    apply Hall in Hpass. destruct Hpass as [-> ->].
    case_bool_decide; reflexivity.
Qed.

(** ** The loop over the changed files, as a whole *)

Lemma forallb_same_elements {A} (p : A -> bool) (l l' : list A) :
  (forall x, In x l <-> In x l') -> forallb p l = forallb p l'.
Proof.
  intros H. apply eq_true_iff_eq. rewrite !forallb_forall.
  split; intros Hall x Hx; apply Hall, H, Hx.
Qed.

Lemma existsb_same_elements {A} (p : A -> bool) (l l' : list A) :
  (forall x, In x l <-> In x l') -> existsb p l = existsb p l'.
Proof.
  intros H. apply eq_true_iff_eq. rewrite !existsb_exists.
  split; intros (x & Hx & Hp); exists x; (split; [apply H, Hx|exact Hp]).
Qed.

(** X9: only the set of the changed files matters for the result: over
    two lists that hold the same paths, in whatever order and however
    often, the loop ends the same way, with the same value of
    [validation_failed]. *)
Theorem X9_order_of_changed_files_is_irrelevant
    (fuel : nat) (self : checker) (w : world)
    (approvers files files' : list (list N)) (validation_failed : bool) :
  (forall f, In f files <-> In f files') ->
  outcome (for_in files (check_file fuel self w approvers) validation_failed)
  = outcome (for_in files' (check_file fuel self w approvers)
               validation_failed).
Proof.
  intros Hsame. rewrite !for_in_check_file_outcome. unfold any_file_fails.
  rewrite (forallb_same_elements _ _ _ Hsame),
    (existsb_same_elements _ _ _ Hsame).
  reflexivity.
Qed.

(** X10: a loop that finds no failing file still finds none when files
    are dropped from the list and when approvers are added: more
    approvals, or fewer changed files, never turn a pass into a fail. *)
Theorem X10_pass_survives_more_approvers_and_fewer_files
    (fuel : nat) (self : checker) (w : world)
    (approvers approvers' files files' : list (list N)) :
  (forall a, In a approvers -> In a approvers') ->
  (forall f, In f files' -> In f files) ->
  outcome (for_in files (check_file fuel self w approvers) false)
  = Done false ->
  outcome (for_in files' (check_file fuel self w approvers') false)
  = Done false.
Proof.
  intros Happ Hfiles. rewrite !for_in_check_file_outcome. cbn [orb].
  destruct (forallb (resolvable fuel) files) eqn:Hres; [|discriminate].
  intros [= Hnone].
  pose proof (proj1 (all_files_pass self w fuel approvers files)
                (conj Hres Hnone)) as Hpass.
  assert (Hpass' : forall f, In f files' ->
            exists owners : gset (list N),
              outcome (get_codeowners_for_file fuel self w f) = Done owners
              /\ (owners = ∅ \/ exists a, In a approvers' /\ a ∈ owners)).
  { intros f Hf. destruct (Hpass f (Hfiles f Hf)) as (owners & Ho & Hok).
    exists owners. split; [exact Ho|].
    destruct Hok as [E|(a & Ha & Hin)]; [left; exact E|].
    right. exists a. split; [apply Happ, Ha|exact Hin]. }
  apply all_files_pass in Hpass'. destruct Hpass' as [-> ->]. reflexivity.
Qed.

(** ** Which manifests a resolution opens *)

Lemma ancestors_upto_last (n : nat) :
  forall p : Path,
    length (tail p) = n ->
    exists nearer, ancestors_upto n p = nearer ++ [mkPath (root p) []].
Proof.
  induction n as [|n IH]; intros p Hlen; cbn [ancestors_upto].
  - exists []. destruct p as [r t]. destruct t; [reflexivity|discriminate].
  - destruct (IH (parent p)) as (nearer & E).
    { rewrite parent_tail_length, Hlen. reflexivity. }
    exists (p :: nearer). rewrite E. reflexivity.
Qed.

Lemma opened_resolve (self : checker) (w : world) (file_path : list N)
    (fuel : nat) :
  double_slash_rooted file_path = false ->
  (iterations file_path <= fuel)%nat ->
  opened (trace (get_codeowners_for_file fuel self w file_path))
  = List.map (manifest_path self) (ancestors (parent (Path_of file_path)))
    ++ [root_manifest self].
Proof.
  intros Hds Hfuel. rewrite resolve_spec by assumption.
  cbn [trace fst]. unfold resolve_events.
  change (opened (PrintCurrentPath ?p :: ?t)) with (opened t).
  rewrite opened_app, opened_walk_events, opened_read_events. reflexivity.
Qed.

(** X11: resolving a relative path opens the root manifest twice in a
    row: the walk ends at the directory [.], whose manifest is
    [<project dir>/./CODEOWNERS.md], and the read after the loop opens
    [<project dir>/CODEOWNERS.md]; both strings name the same file. *)
Theorem X11_relative_path_opens_root_manifest_twice
    (self : checker) (w : world) (file_path : list N) (fuel : nat) :
  root (Path_of file_path) = [] ->
  (iterations file_path <= fuel)%nat ->
  exists nearer : list (list N),
    opened (trace (get_codeowners_for_file fuel self w file_path))
    = nearer
      ++ [os_path_join (ci_project_dir self) [py "."; CODEOWNERS_md];
          os_path_join (ci_project_dir self) [CODEOWNERS_md]]
    /\ is_absolute (os_path_join (ci_project_dir self)
                      [py "."; CODEOWNERS_md])
       = is_absolute (os_path_join (ci_project_dir self) [CODEOWNERS_md])
    /\ normal_parts (os_path_join (ci_project_dir self)
                       [py "."; CODEOWNERS_md])
       = normal_parts (os_path_join (ci_project_dir self) [CODEOWNERS_md]).
Proof.
  intros Hrel Hfuel.
  destruct (ancestors_upto_last
              (length (tail (parent (Path_of file_path))))
              (parent (Path_of file_path)) eq_refl) as (nearer & E).
  exists (List.map (manifest_path self) nearer). split; [|split].
  - rewrite opened_resolve;
      [|apply relative_not_double_slash; exact Hrel|exact Hfuel].
    unfold ancestors. rewrite E, List.map_app, <- app_assoc.
    rewrite parent_root, Hrel. reflexivity.
  - cbn [os_path_join fold_left].
    destruct (join_step_spells (ci_project_dir self) (py ".") []) as [A1 _].
    { split; [reflexivity|]. intros a st. reflexivity. }
    destruct (join_step_spells (join_step (ci_project_dir self) (py "."))
                CODEOWNERS_md [CODEOWNERS_md] spells_manifest_name)
      as [A2 _].
    destruct (join_step_spells (ci_project_dir self)
                CODEOWNERS_md [CODEOWNERS_md] spells_manifest_name)
      as [A3 _].
    congruence.
  - cbn [os_path_join fold_left].
    destruct (join_step_spells (ci_project_dir self) (py ".") []) as [_ N1].
    { split; [reflexivity|]. intros a st. reflexivity. }
    destruct (join_step_spells (join_step (ci_project_dir self) (py "."))
                CODEOWNERS_md [CODEOWNERS_md] spells_manifest_name)
      as [_ N2].
    destruct (join_step_spells (ci_project_dir self)
                CODEOWNERS_md [CODEOWNERS_md] spells_manifest_name)
      as [_ N3].
    rewrite N2, N1, N3, app_nil_r. reflexivity.
Qed.

Lemma absolute_not_double_slash (file_path : list N) :
  root (Path_of file_path) = py "/" -> double_slash_rooted file_path = false.
Proof.
  rewrite Path_of_root, splitroot_root.
  destruct (startswith file_path (py "/")); [|discriminate].
  destruct (double_slash_rooted file_path); [discriminate|reflexivity].
Qed.

Lemma manifest_path_absolute (self : checker) (d : Path) :
  root d = py "/" ->
  manifest_path self d = join_step (Path_str d) CODEOWNERS_md
  /\ is_absolute (manifest_path self d) = true.
Proof.
  intros Hroot. unfold manifest_path, os_path_join. cbn [fold_left].
  assert (Hstr : exists rest, Path_str d = 47 :: rest).
  { unfold Path_str. rewrite Hroot. eexists. reflexivity. }
  destruct Hstr as (rest & Hstr).
  assert (Hjoin : join_step (ci_project_dir self) (Path_str d) = Path_str d).
  { unfold join_step. rewrite Hstr. reflexivity. }
  rewrite Hjoin. split; [reflexivity|].
  unfold join_step. change (startswith CODEOWNERS_md (py "/")) with false.
  rewrite Hstr. cbn [bool_decide decide_rel orb].
  destruct (bool_decide (47 :: rest = []) || endswith (47 :: rest) (py "/"));
    reflexivity.
Qed.

(** X12: for an absolute changed path the project directory plays no part
    in the walk: every manifest the loop opens is the manifest of a
    directory of the path itself, an absolute location that does not
    depend on [CI_PROJECT_DIR]; only the read after the loop looks under
    the project directory. *)
Theorem X12_absolute_path_ignores_project_dir
    (self : checker) (w : world) (file_path : list N) (fuel : nat) :
  root (Path_of file_path) = py "/" ->
  (iterations file_path <= fuel)%nat ->
  opened (trace (get_codeowners_for_file fuel self w file_path))
  = List.map (fun d => join_step (Path_str d) CODEOWNERS_md)
      (ancestors (parent (Path_of file_path)))
    ++ [os_path_join (ci_project_dir self) [CODEOWNERS_md]]
  /\ Forall (fun loc => is_absolute loc = true)
       (List.map (fun d => join_step (Path_str d) CODEOWNERS_md)
          (ancestors (parent (Path_of file_path)))).
Proof.
  intros Habs Hfuel.
  assert (Hd : forall d, In d (ancestors (parent (Path_of file_path))) ->
             root d = py "/").
  { intros d Hin. apply ancestors_upto_in in Hin. destruct Hin as [-> _].
    exact Habs. }
  split.
  - rewrite opened_resolve;
      [|apply absolute_not_double_slash; exact Habs|exact Hfuel].
    f_equal. apply map_ext_in. intros d Hin.
    apply manifest_path_absolute, Hd, Hin.
  - apply List.Forall_forall. intros loc Hloc.
    apply in_map_iff in Hloc. destruct Hloc as (d & <- & Hin).
    destruct (manifest_path_absolute self d (Hd d Hin)) as [<- Ha].
    exact Ha.
Qed.

(** ** More on the manifest parser *)

Lemma spec_parse_member (content line token owner : list N) :
  In line (splitlines content) ->
  strip line <> [] -> startswith (strip line) (py "#") = false ->
  In token (split (strip line)) ->
  spec_token_owner token = Some owner ->
  owner ∈ spec_parse content.
Proof.
  intros Hline Hne Hhash Htok Hown. unfold spec_parse, spec_tokens.
  rewrite elem_of_list_to_set, list_elem_of_omap.
  exists token. split; [|exact Hown].
  apply list_elem_of_In, in_concat. exists (split (strip line)).
  split; [|exact Htok].
  apply in_map_iff. exists (strip line). split; [reflexivity|].
  apply filter_In. split; [apply in_map; exact Hline|].
  unfold spec_declaration_line. rewrite Hhash.
  rewrite bool_decide_eq_false_2 by exact Hne. reflexivity.
Qed.

Lemma spec_parse_inv (content owner : list N) :
  owner ∈ spec_parse content ->
  exists line token,
    In line (splitlines content)
    /\ In token (split (strip line))
    /\ spec_token_owner token = Some owner.
Proof.
  unfold spec_parse, spec_tokens.
  rewrite elem_of_list_to_set, list_elem_of_omap.
  intros (token & Htok & Hown).
  apply list_elem_of_In, in_concat in Htok.
  destruct Htok as (words & Hwords & Htok).
  apply in_map_iff in Hwords. destruct Hwords as (trimmed & <- & Htr).
  apply filter_In in Htr. destruct Htr as [Htr _].
  apply in_map_iff in Htr. destruct Htr as (line & <- & Hline).
  eauto.
Qed.

Lemma split_from_no_space (s : list N) :
  forall cur : list N,
    Forall (fun c => isspace c = false) cur ->
    Forall (Forall (fun c => isspace c = false)) (split_from cur s).
Proof.
  induction s as [|c s IH]; intros cur Hcur; cbn [split_from].
  - destruct cur; constructor; [|constructor].
    apply Forall_rev. exact Hcur.
  - destruct (isspace c) eqn:Hc.
    + destruct cur as [|x cur]; [apply IH; constructor|].
      constructor; [apply Forall_rev; exact Hcur|apply IH; constructor].
    + apply IH. constructor; assumption.
Qed.

Lemma approvers_nonempty (self : checker) (w : world)
    (approvers : list (list N)) :
  outcome (get_mr_approvals self w) = Done approvers -> ~ In [] approvers.
Proof.
  destruct (approved_by w) as [data|e] eqn:Ha.
  - rewrite (get_mr_approvals_ok _ _ _ Ha). intros [= <-] Hin.
    apply list_elem_of_In, list_elem_of_omap in Hin.
    destruct Hin as (a & _ & Hu). apply approver_of_Some in Hu.
    destruct Hu as [_ Hne]. contradiction.
  - unfold get_mr_approvals. rewrite Ha, !emit_then. discriminate.
Qed.

(** X13: a token that is just the mention marker [@] declares the empty
    string as an owner, and the empty string is never an approver.  So a
    changed file whose resolved owners are only the empty name gets the
    fail verdict whoever approved. *)
Theorem X13_lone_marker_owner_is_never_satisfied
    (fuel : nat) (self : checker) (w : world) :
  (forall (content line : list N) (owners : gset (list N)),
      outcome (extract_owners content) = Done owners ->
      In line (splitlines content) ->
      strip line <> [] -> startswith (strip line) (py "#") = false ->
      In (py "@") (split (strip line)) ->
      [] ∈ owners)
  /\ forall (approvers : list (list N)) (file_path : list N)
            (owners : gset (list N)),
       outcome (get_mr_approvals self w) = Done approvers ->
       outcome (get_codeowners_for_file fuel self w file_path) = Done owners ->
       owners <> ∅ -> owners ⊆ {[ [] ]} ->
       file_verdict fuel self w approvers file_path = Some Fail.
Proof.
  split.
  - intros content line owners. rewrite extract_owners_spec.
    intros [= <-] Hline Hne Hhash Htok.
    eapply spec_parse_member; try eassumption. reflexivity.
  - intros approvers file_path owners Ha Ho Hne Hsub.
    destruct (resolve_done_inv _ _ _ _ _ Ho) as [Hds Hfuel].
    rewrite file_verdict_spec by assumption.
    rewrite resolve_spec in Ho by assumption. injection Ho as <-.
    f_equal. unfold spec_verdict.
    rewrite (bool_decide_eq_false_2 _ Hne).
    rewrite bool_decide_eq_true_2; [reflexivity|].
    apply approvers_nonempty in Ha.
    apply set_eq. intros a. split; [|set_solver].
    intros Hin. apply elem_of_intersection in Hin. destruct Hin as [H1 H2].
    apply Hsub, elem_of_singleton in H2. subst a.
    apply elem_of_list_to_set, list_elem_of_In in H1. contradiction.
Qed.

(** X14: manifests compose by union: a text made of two texts with a
    newline between them declares the owners of the first together with
    the owners of the second. *)
Theorem X14_joined_manifests_declare_the_union
    (first second : list N) (owners_first owners_second : gset (list N)) :
  outcome (extract_owners first) = Done owners_first ->
  outcome (extract_owners second) = Done owners_second ->
  outcome (extract_owners (first ++ [0xa] ++ second))
  = Done (owners_first ∪ owners_second).
Proof.
  rewrite !extract_owners_spec. intros [= <-] [= <-].
  change (first ++ [10] ++ second) with (first ++ 10 :: second).
  cbn [outcome snd]. rewrite spec_parse_newline. reflexivity.
Qed.

(** X15: no owner name holds a whitespace character: neither the owners
    [read_codeowners_file] returns for a manifest nor, therefore, the
    owners the resolver returns for a file. *)
Theorem X15_owner_names_hold_no_whitespace
    (self : checker) (w : world) (owner : list N) :
  (forall (loc : list N) (owners : gset (list N)),
      outcome (read_codeowners_file w loc) = Done owners ->
      owner ∈ owners -> Forall (fun c => isspace c = false) owner)
  /\ (forall (fuel : nat) (file_path : list N) (owners : gset (list N)),
         outcome (get_codeowners_for_file fuel self w file_path)
         = Done owners ->
         owner ∈ owners -> Forall (fun c => isspace c = false) owner).
Proof.
  assert (Hdecl : forall loc, owner ∈ declared w loc ->
            Forall (fun c => isspace c = false) owner).
  { intros loc. unfold declared.
    destruct (open_read w loc) as [content| |e]; try set_solver.
    intros Hin. apply spec_parse_inv in Hin.
    destruct Hin as (line & token & _ & Htok & Hown).
    pose proof (split_from_no_space (strip line) []
                  (List.Forall_nil _)) as Hall.
    rewrite List.Forall_forall in Hall. specialize (Hall token Htok).
    unfold spec_token_owner in Hown.
    destruct (startswith token (py "@")).
    - injection Hown as <-. destruct token; [constructor|].
      inversion Hall; assumption.
    - destruct (startswith token (py "/") || startswith token (py "*"));
        [discriminate|].
      injection Hown as <-. exact Hall. }
  split.
  - intros loc owners. rewrite read_codeowners_file_spec.
    intros [= <-]. apply Hdecl.
  - intros fuel file_path owners Ho.
    destruct (resolve_done_inv _ _ _ _ _ Ho) as [Hds Hfuel].
    rewrite resolve_spec in Ho by assumption. injection Ho as <-.
    unfold resolved. rewrite elem_of_union_list.
    intros (X & HX & Hin). apply list_elem_of_In, in_map_iff in HX.
    destruct HX as (loc & <- & _). exact (Hdecl loc Hin).
Qed.


Lemma init_job_environ : init job_environ = Constructed job_checker.
Proof. vm_compute. reflexivity. Qed.

(** ** What a run opens *)

Lemma startswith_app (s t : list N) : startswith (s ++ t) s = true.
Proof.
  induction s as [|c s IH]; [reflexivity|].
  cbn [app]. rewrite startswith_cons, N.eqb_refl, IH. reflexivity.
Qed.

Lemma endswith_app (s t : list N) : endswith (s ++ t) t = true.
Proof. unfold endswith. rewrite rev_app_distr. apply startswith_app. Qed.

Lemma join_step_manifest_name (path : list N) :
  endswith (join_step path CODEOWNERS_md) CODEOWNERS_md = true.
Proof.
  unfold join_step. change (startswith CODEOWNERS_md (py "/")) with false.
  cbn iota.
  destruct (bool_decide (path = []) || endswith path (py "/")).
  - apply endswith_app.
  - rewrite app_assoc. apply endswith_app.
Qed.

Lemma opened_file_events_free (t : list event) :
  Forall (fun e => file_event e = false) t -> opened t = [].
Proof.
  induction 1 as [|e t He _ IH]; [reflexivity|].
  destruct e; try discriminate He; exact IH.
Qed.

Section Opens.

Context (self : checker) (w : world) (fuel : nat).

Lemma walk_opens_manifests (n : nat) :
  forall (p : Path) (acc : gset (list N)),
    Forall (fun loc => endswith loc CODEOWNERS_md = true)
           (opened (trace (walk n self w p acc))).
Proof.
  induction n as [|n IH]; intros p acc; [constructor|].
  rewrite walk_step. cbn [trace fst].
  change (opened (PrintCodeownersPath ?l :: ?t)) with (opened t).
  rewrite opened_app, opened_read_events. constructor.
  - unfold manifest_path, os_path_join. cbn [fold_left].
    apply join_step_manifest_name.
  - destruct (bool_decide (p = Path_of (py "."))
              || bool_decide (p = Path_of (py "/")));
      [constructor|apply IH].
Qed.

Lemma resolve_opens_manifests (file_path : list N) :
  Forall (fun loc => endswith loc CODEOWNERS_md = true)
         (opened (trace (get_codeowners_for_file fuel self w file_path))).
Proof.
  unfold get_codeowners_for_file. rewrite emit_then. cbn [trace fst].
  change (opened (PrintCurrentPath ?p :: ?t)) with (opened t).
  rewrite trace_bind, opened_app. apply Forall_app.
  split; [apply walk_opens_manifests|].
  destruct (outcome (walk fuel self w (parent (Path_of file_path)) ∅));
    [|constructor..].
  rewrite read_codeowners_file_spec, bind_done. cbn [trace fst].
  rewrite app_nil_r, opened_read_events.
  constructor; [|constructor].
  unfold os_path_join. cbn [fold_left]. apply join_step_manifest_name.
Qed.

Lemma check_file_opens_manifests (approvers : list (list N))
    (file_path : list N) (vf : bool) :
  Forall (fun loc => endswith loc CODEOWNERS_md = true)
         (opened (trace (check_file fuel self w approvers file_path vf))).
Proof.
  unfold check_file. rewrite emit_then. cbn [trace fst].
  change (opened (PrintChecking ?p :: ?t)) with (opened t).
  rewrite trace_bind, opened_app. apply Forall_app.
  split; [apply resolve_opens_manifests|].
  destruct (outcome (get_codeowners_for_file fuel self w file_path))
    as [owners| |]; [|constructor..].
  destruct (bool_decide (owners = ∅)); [constructor|].
  rewrite emit_then. cbn [trace fst].
  destruct (bool_decide (list_to_set approvers ∩ owners = ∅));
    constructor.
Qed.

Lemma for_in_opens_manifests (approvers : list (list N))
    (files : list (list N)) :
  forall vf : bool,
    Forall (fun loc => endswith loc CODEOWNERS_md = true)
           (opened (trace (for_in files (check_file fuel self w approvers)
                             vf))).
Proof.
  induction files as [|f files IH]; intros vf; [constructor|].
  rewrite for_in_cons, trace_bind, opened_app. apply Forall_app.
  split; [apply check_file_opens_manifests|].
  destruct (outcome (check_file fuel self w approvers f vf));
    [apply IH|constructor..].
Qed.

End Opens.

(** X16: whatever the responses, the project directory and the changed
    paths, a run opens no file but manifests: the name of every file it
    opens ends with [CODEOWNERS.md]. *)
Theorem X16_only_manifests_are_opened
    (fuel : nat) (self : checker) (w : world) :
  Forall (fun loc => endswith loc (py "CODEOWNERS.md") = true)
         (opened (trace (validate_approvals fuel self w))).
Proof.
  destruct (merge_request w) as [details|e] eqn:Hd.
  2:{ rewrite (validate_details_failed _ _ _ _ Hd). constructor. }
  destruct (approved_by w) as [approvals_data|e] eqn:Ha.
  2:{ rewrite (validate_approvals_failed _ _ _ _ _ Hd Ha). constructor. }
  assert (Hout : outcome (get_mr_approvals self w)
                 = Done (omap approver_of approvals_data))
    by (rewrite (get_mr_approvals_ok _ _ _ Ha); reflexivity).
  rewrite (validate_approvals_start _ _ _ _ _ Hd Hout). cbn [trace fst].
  rewrite opened_app.
  change (opened (preamble self details)) with (@nil (list N)).
  cbn [app]. case_bool_decide as Hna; [constructor|].
  rewrite emit_then. cbn [trace fst].
  change (opened (PrintApprovers ?a :: ?t)) with (opened t).
  rewrite trace_bind, opened_app.
  destruct (changes w) as [changes_data|e] eqn:Hc.
  2:{ unfold get_changed_files. rewrite Hc, !emit_then. constructor. }
  rewrite (get_changed_files_ok _ _ _ Hc). cbn [trace outcome fst snd].
  change (opened [HttpGet (changes_url self)]) with (@nil (list N)).
  cbn [app]. case_bool_decide as Hnc; [constructor|].
  rewrite emit_then, for_in_print_changed, bind_done. cbn [trace fst].
  change (opened (PrintChangedFiles ?n :: ?t)) with (opened t).
  rewrite opened_app, trace_bind, opened_app.
  apply Forall_app. split.
  { rewrite opened_file_events_free; [constructor|].
    apply List.Forall_forall. intros ev Hev. apply in_map_iff in Hev.
    destruct Hev as (f & <- & _). reflexivity. }
  apply Forall_app. split; [apply for_in_opens_manifests|].
  destruct (outcome (for_in _ _ false)) as [[|]| |]; constructor.
Qed.

(** ** A run whose walks terminate *)

(** X17: on a non-empty list of changed files and a non-empty list of
    approvers, a run returns as soon as no changed path starts with
    exactly two slashes and the fuel covers the longest walk.  Whenever it
    returns, it returns [True] exactly when no changed file got the fail
    verdict; its report carries the events of each changed file, in the
    order of the list; and every changed file was resolved and got one
    verdict: "no owners" (a pass) when its resolved owner set is empty,
    pass when that set is non-empty and shares an approver, fail exactly
    when it is non-empty and shares none. *)
Theorem X17_returned_result_follows_the_file_verdicts
    (self : checker) (w : world) (details : mr_details)
    (approvers changed_files : list (list N)) (fuel : nat) :
  merge_request w = Ok details ->
  outcome (get_mr_approvals self w) = Done approvers ->
  outcome (get_changed_files self w) = Done changed_files ->
  approvers <> [] -> changed_files <> [] ->
  (Forall (fun f => double_slash_rooted f = false) changed_files ->
   (walk_fuel changed_files <= fuel)%nat ->
   exists passed : bool,
     outcome (validate_approvals fuel self w) = Done passed)
  /\ forall passed : bool,
       outcome (validate_approvals fuel self w) = Done passed ->
       (passed = true <->
        forall f, In f changed_files ->
                  file_verdict fuel self w approvers f <> Some Fail)
       /\ trace (validate_approvals fuel self w)
          = preamble self details
            ++ [PrintApprovers approvers; HttpGet (changes_url self);
                PrintChangedFiles (length changed_files)]
            ++ List.map PrintChangedFile changed_files
            ++ flat_map (fun f => trace (check_file fuel self w approvers
                                           f false)) changed_files
            ++ [if passed then PrintPassed else PrintFailed]
       /\ forall f, In f changed_files ->
            exists owners : gset (list N),
              outcome (get_codeowners_for_file fuel self w f) = Done owners
              /\ (owners = ∅ ->
                  file_verdict fuel self w approvers f
                  = Some NoOwnersDeclared)
              /\ (owners <> ∅ -> list_to_set approvers ∩ owners <> ∅ ->
                  file_verdict fuel self w approvers f = Some Pass)
              /\ (file_verdict fuel self w approvers f = Some Fail <->
                  owners <> ∅ /\ list_to_set approvers ∩ owners = ∅).
Proof.
  intros Hd Ha Hc Hna Hnc. split.
  { intros Hall Hfuel. eexists.
    rewrite (validate_approvals_files _ _ _ _ _ _ Hd Ha Hc Hna Hnc Hall Hfuel).
    reflexivity. }
  intros passed Hdone.
  pose proof (validate_approvals_done_inv _ _ _ _ _ _ _
                Hd Ha Hc Hna Hnc Hdone) as Hok.
  rewrite List.Forall_forall in Hok.
  assert (Hall : Forall (fun f => double_slash_rooted f = false)
                        changed_files).
  { apply List.Forall_forall. intros f Hf. apply (Hok f Hf). }
  assert (Hfuel : (walk_fuel changed_files <= fuel)%nat).
  { unfold walk_fuel. apply list_max_le, List.Forall_forall.
    intros n Hn. apply in_map_iff in Hn. destruct Hn as (f & <- & Hf).
    apply (Hok f Hf). }
  assert (Hv : forall f, In f changed_files ->
             file_verdict fuel self w approvers f
             = Some (spec_verdict approvers (resolved self w f))).
  { intros f Hf. apply file_verdict_spec; apply (Hok f Hf). }
  rewrite (validate_approvals_files _ _ _ _ _ _ Hd Ha Hc Hna Hnc Hall Hfuel)
    in Hdone |- *.
  injection Hdone as <-. split; [|split].
  - unfold any_file_fails.
    rewrite negb_true_iff, <- not_true_iff_false, existsb_exists. split.
    + intros Hno f Hf. rewrite (Hv f Hf). intros [= E].
      apply Hno. exists f. split; [exact Hf|].
      apply bool_decide_eq_true. exact E.
    + intros Hno (f & Hf & E). apply bool_decide_eq_true in E.
      apply (Hno f Hf). rewrite (Hv f Hf), E. reflexivity.
  - cbn [trace fst]. unfold run_events.
    rewrite (flat_map_ext_in
               (fun f => trace (check_file fuel self w approvers f false))
               (check_events self w approvers)).
    + destruct (any_file_fails self w approvers changed_files); reflexivity.
    + intros f Hf. rewrite check_file_spec by apply (Hok f Hf). reflexivity.
  - intros f Hf. exists (resolved self w f). split.
    + rewrite resolve_spec; [reflexivity|apply (Hok f Hf)..].
    + rewrite (Hv f Hf). unfold spec_verdict.
      repeat case_bool_decide; repeat split; intros;
        try congruence; try tauto.
      all: match goal with H : _ /\ _ |- _ => destruct H end; congruence.
Qed.

(** ** Instances of the further properties *)

Lemma X1_scenario_rename :
  exists approvers : list (list N),
    get_mr_approvals here scenario_rename
    = ([HttpGet (approvals_url here)], Done approvers)
    /\ approvers = [py "bob"].
Proof.
  destruct (X1_approvers_are_the_nonempty_usernames here scenario_rename
              [ {| username := None |}; {| username := Some (py "bob") |};
                {| username := Some [] |} ] eq_refl)
    as (approvers & Hrun & Hnames & _).
  exists approvers. split; [exact Hrun|]. rewrite Hnames. reflexivity.
Defined.

Lemma X2_scenario_rename :
  exists changed_files : list (list N),
    get_changed_files here scenario_rename
    = ([HttpGet (changes_url here)], Done changed_files)
    /\ changed_files
       = [py "src/new.txt"; py "docs/old.txt"; py "src/a.txt"].
Proof.
  destruct (X2_changed_files_hold_both_paths_of_a_rename here scenario_rename
              [ {| new_path := Some (py "src/new.txt");
                   old_path := Some (py "docs/old.txt") |};
                {| new_path := Some (py "src/a.txt");
                   old_path := Some (py "src/a.txt") |} ] eq_refl)
    as (changed_files & Hrun & Hpaths & _).
  exists changed_files. split; [exact Hrun|]. rewrite Hpaths. reflexivity.
Defined.

Lemma X3_scenario_outage :
  outcome (validate_approvals 0 here (scenario_outage 3)) = SysExit 1
  /\ opened (trace (validate_approvals 0 here (scenario_outage 3))) = [].
Proof.
  destruct (X3_failed_request_exits_with_1 0 here (scenario_outage 3)
              (py "503")) as (_ & _ & Hchanges).
  destruct (Hchanges scenario_details [py "bob"]) as [Hrun Hopened].
  - reflexivity.
  - reflexivity.
  - discriminate.
  - reflexivity.
  - split; [rewrite Hrun; reflexivity|exact Hopened].
Defined.

Lemma X4_scenario_outage :
  opened (trace (validate_approvals 0 here (scenario_outage 2))) = []
  /\ exists e, approved_by (scenario_outage 2) = RequestException e.
Proof.
  destruct (X4_exit_only_after_a_failed_request 0 here (scenario_outage 2) 1)
    as (_ & Hopened & [(e & He)|[(details & e & _ & He)|Hchanges]]).
  - reflexivity.
  - discriminate He.
  - split; [exact Hopened|]. exists e. exact He.
  - destruct Hchanges as (details & approvers & e & _ & Ha & _).
    discriminate Ha.
Defined.

Lemma X6_job_environ :
  exists obj : CodeownersChecker,
    init job_environ = Constructed obj
    /\ ci_project_dir (attributes obj) = py ".".
Proof.
  destruct (X6_init_needs_four_variables job_environ)
    as (Hbuilt & _ & Hattrs).
  destruct (proj2 Hbuilt) as (obj & Hobj).
  - intros name [<-|[<-|[<-|[<-|[]]]]];
      eexists; (split; [vm_compute; reflexivity|discriminate]).
  - exists obj. split; [exact Hobj|].
    destruct (Hattrs obj Hobj) as (_ & _ & _ & _ & _ & _ & Hdir).
    rewrite Hdir. reflexivity.
Defined.

Lemma X7_empty_environ :
  main 0 ∅ scenario_C = ([PrintScriptFailed missing_variables], SysExit 1).
Proof.
  apply (X7_main_exit_code 0 ∅ scenario_C).
  exists (py "GITLAB_TOKEN"). split; [left; reflexivity|].
  intros (value & Hvalue & _). rewrite lookup_empty in Hvalue.
  discriminate Hvalue.
Defined.

Lemma X8_scenario_C : snd (main 3 job_environ scenario_C) = SysExit 0.
Proof.
  apply (X8_exit_0_iff_every_owned_file_is_approved 3 job_environ
           scenario_C).
  exists job_checker, scenario_details,
    [ {| username := Some (py "bob") |} ],
    [ {| new_path := Some (py "src/sub/b.txt");
         old_path := Some (py "src/sub/b.txt") |} ].
  split; [exact init_job_environ|]. split; [reflexivity|].
  split; [reflexivity|]. split; [reflexivity|]. split; [discriminate|].
  intros f [<-|[]]. exists {[ py "alice"; py "bob" ]}. split.
  - vm_compute. reflexivity.
  - right. exists (py "bob"). split; [left; reflexivity|set_solver].
Defined.

Lemma X9_scenario_siblings :
  outcome (for_in [py "src/a.txt"; py "src/b.txt"]
             (check_file 2 here scenario_siblings [py "bob"]) false)
  = outcome (for_in [py "src/b.txt"; py "src/a.txt"; py "src/b.txt"]
               (check_file 2 here scenario_siblings [py "bob"]) false).
Proof.
  apply (X9_order_of_changed_files_is_irrelevant 2 here scenario_siblings).
  intros f. simpl. tauto.
Defined.

Lemma X10_scenario_siblings :
  outcome (for_in [py "src/a.txt"]
             (check_file 2 here scenario_siblings [py "bob"; py "carol"])
             false)
  = Done false.
Proof.
  apply (X10_pass_survives_more_approvers_and_fewer_files 2 here
           scenario_siblings [py "bob"] [py "bob"; py "carol"]
           [py "src/a.txt"; py "src/b.txt"] [py "src/a.txt"]).
  - intros a [<-|[]]. left. reflexivity.
  - intros f [<-|[]]. left. reflexivity.
  - vm_compute. reflexivity.
Defined.

Lemma X11_scenario_B :
  exists nearer : list (list N),
    opened (trace (get_codeowners_for_file 3 here scenario_B
                     (py "src/sub/b.txt")))
    = nearer ++ [py "././CODEOWNERS.md"; py "./CODEOWNERS.md"]
    /\ normal_parts (py "././CODEOWNERS.md")
       = normal_parts (py "./CODEOWNERS.md").
Proof.
  destruct (X11_relative_path_opens_root_manifest_twice here scenario_B
              (py "src/sub/b.txt") 3) as (nearer & Hopened & _ & Hsame).
  - reflexivity.
  - vm_compute. lia.
  - exists nearer. split; [exact Hopened|exact Hsame].
Defined.

Lemma X12_etc_passwd :
  opened (trace (get_codeowners_for_file 2 builds_checker builds_world
                   (py "/etc/passwd")))
  = List.map (fun d => join_step (Path_str d) CODEOWNERS_md)
      (ancestors (parent (Path_of (py "/etc/passwd"))))
    ++ [os_path_join (ci_project_dir builds_checker) [CODEOWNERS_md]]
  /\ Forall (fun loc => is_absolute loc = true)
       (List.map (fun d => join_step (Path_str d) CODEOWNERS_md)
          (ancestors (parent (Path_of (py "/etc/passwd"))))).
Proof.
  apply (X12_absolute_path_ignores_project_dir builds_checker builds_world
           (py "/etc/passwd") 2).
  - reflexivity.
  - vm_compute. lia.
Defined.

Lemma X13_scenario_lone_marker :
  file_verdict 1 here scenario_lone_marker [py "bob"] (py "a.txt")
  = Some Fail.
Proof.
  apply (proj2 (X13_lone_marker_owner_is_never_satisfied 1 here
                  scenario_lone_marker)
           [py "bob"] (py "a.txt") {[ [] ]}).
  - reflexivity.
  - vm_compute. reflexivity.
  - set_solver.
  - set_solver.
Defined.

Lemma X14_alice_and_bob :
  outcome (extract_owners (py "@alice" ++ [0xa] ++ py "@bob"))
  = Done ({[ py "alice" ]} ∪ {[ py "bob" ]}).
Proof.
  apply (X14_joined_manifests_declare_the_union (py "@alice") (py "@bob")).
  - vm_compute. reflexivity.
  - vm_compute. reflexivity.
Defined.

Lemma X15_scenario_B : Forall (fun c => isspace c = false) (py "alice").
Proof.
  apply (proj1 (X15_owner_names_hold_no_whitespace here scenario_B
                  (py "alice"))
           (py "./CODEOWNERS.md") {[ py "alice" ]}).
  - vm_compute. reflexivity.
  - set_solver.
Defined.

Lemma X17_scenario_B :
  exists passed : bool,
    outcome (validate_approvals 3 here scenario_B) = Done passed
    /\ (passed = true <->
        forall f, In f [py "src/sub/b.txt"] ->
                  file_verdict 3 here scenario_B [py "carol"] f <> Some Fail)
    /\ trace (validate_approvals 3 here scenario_B)
       = preamble here scenario_details
         ++ [PrintApprovers [py "carol"]; HttpGet (changes_url here);
             PrintChangedFiles (length [py "src/sub/b.txt"])]
         ++ List.map PrintChangedFile [py "src/sub/b.txt"]
         ++ flat_map (fun f => trace (check_file 3 here scenario_B
                                        [py "carol"] f false))
              [py "src/sub/b.txt"]
         ++ [if passed then PrintPassed else PrintFailed]
    /\ forall f, In f [py "src/sub/b.txt"] ->
         exists owners : gset (list N),
           outcome (get_codeowners_for_file 3 here scenario_B f) = Done owners
           /\ (owners = ∅ ->
               file_verdict 3 here scenario_B [py "carol"] f
               = Some NoOwnersDeclared)
           /\ (owners <> ∅ -> list_to_set [py "carol"] ∩ owners <> ∅ ->
               file_verdict 3 here scenario_B [py "carol"] f = Some Pass)
           /\ (file_verdict 3 here scenario_B [py "carol"] f = Some Fail <->
               owners <> ∅ /\ list_to_set [py "carol"] ∩ owners = ∅).
Proof.
  destruct (X17_returned_result_follows_the_file_verdicts here scenario_B
              scenario_details [py "carol"] [py "src/sub/b.txt"] 3)
    as [Hreturns Hrule].
  - reflexivity.
  - reflexivity.
  - reflexivity.
  - discriminate.
  - discriminate.
  - destruct Hreturns as [passed Hpassed].
    + repeat constructor.
    + vm_compute. lia.
    + exists passed. split; [exact Hpassed|]. apply Hrule. exact Hpassed.
Defined.
